(** * Keys lookup of the global flood model

    A shallow embedding of [sandpit/keys_server_global.py]: the class
    [GLOBAL_FLOODKeysLookup], its table set-up in [__init__], the helpers
    [get_latlon], [get_peril], [get_latlon_ids], [get_mobile_home],
    [get_mcm_code_residential], [get_mcm_code_non_residential],
    [get_number_of_storeys], [get_floors_occupied], [get_bi_poi],
    [get_first_floor_height], [format_keys_df] and the driver
    [process_locations].

    Data model.  A pandas DataFrame is a list of rows, a row is a record with
    one field per column, and the position in the list is the RangeIndex
    label.  A cell that pandas may hold as NaN is an [option]; a column that
    does not exist yet is [None] in every row.  Integers are [Z].  A float64
    is modelled by the rational it denotes ([Q], compared with [Qeq_bool] and
    [Qle_bool]); NaN is [None].  Text is [string].  The lookup object [self]
    is threaded explicitly: [process_locations] returns the object it leaves
    behind together with the keys frame, or the exception it raises. *)

From Stdlib Require Import ZArith QArith Qround Lqa String Ascii List Bool Lia.
From Stdlib Require Import DecimalString.
From stdpp Require Import base option list strings gmap.

Local Open Scope Z_scope.

(** ** Scalars *)

(** float64 comparisons on the rational model. *)
Definition Qeqb (x y : Q) : bool := Qeq_bool x y.
Definition Qleb (x y : Q) : bool := Qle_bool x y.
Definition Qltb (x y : Q) : bool := negb (Qle_bool y x).
Definition Qgeb (x y : Q) : bool := Qle_bool y x.
Definition Qgtb (x y : Q) : bool := negb (Qle_bool x y).

(** [series == value] on a float column that may hold NaN: NaN compares
    unequal to everything. *)
Definition float_eqb (x : option Q) (v : Q) : bool :=
  match x with Some q => Qeqb q v | None => false end.

(** [series == text] on an object column that may hold NaN. *)
Definition str_eqb (x : option string) (v : string) : bool :=
  match x with Some s => String.eqb s v | None => false end.

Definition isnull {A} (x : option A) : bool :=
  match x with Some _ => false | None => true end.
Definition notna {A} (x : option A) : bool := negb (isnull x).

(** [fillna(v)]. *)
Definition fillna {A} (v : A) (x : option A) : option A :=
  match x with Some a => Some a | None => Some v end.

(** The two kinds of truth value the program meets: the interpreter's own
    [True]/[False] objects and the scalars numpy reductions return.  The
    operator [is] compares object identity, so a numpy scalar is never the
    interpreter's [False]. *)
Inductive py_truth : Type :=
  | PyBool (b : bool)
  | NpBool (b : bool).

Definition py_is (x y : py_truth) : bool :=
  match x, y with
  | PyBool a, PyBool b => Bool.eqb a b
  | NpBool a, NpBool b => Bool.eqb a b
  | _, _ => false
  end.

(** [Series.all()] on a boolean series: a numpy scalar. *)
Definition Series_all (s : list bool) : py_truth := NpBool (forallb id s).

(** Exceptions that leave [process_locations]. *)
Inductive exn : Type := KeyError | ValueError.

Definition result (A : Type) : Type := (exn + A)%type.

Definition bind {A B} (x : result A) (f : A -> result B) : result B :=
  match x with inl e => inl e | inr a => f a end.

Notation "'let*' x := c 'in' k" := (bind c (fun x => k))
  (at level 10, x name, c at level 100, k at level 200).

Fixpoint mapM {A B} (f : A -> result B) (l : list A) : result (list B) :=
  match l with
  | [] => inr []
  | a :: t => let* b := f a in let* bs := mapM f t in inr (b :: bs)
  end.

(** ** Text helpers *)

Definition str_upper (s : string) : string :=
  string_of_list_ascii
    (map (fun c => if (97 <=? nat_of_ascii c)%nat && (nat_of_ascii c <=? 122)%nat
                   then ascii_of_nat (nat_of_ascii c - 32) else c)
         (list_ascii_of_string s)).

(** [str.replace(" ", "")]. *)
Definition str_remove_spaces (s : string) : string :=
  string_of_list_ascii
    (List.filter (fun c => negb (Ascii.eqb c " ")) (list_ascii_of_string s)).

(** [str.contains(pat)] for a pattern without regular-expression operators
    (the peril ids are three capital letters): the substring test. *)
Fixpoint str_contains (pat s : string) : bool :=
  String.prefix pat s
  || match s with
     | EmptyString => false
     | String _ t => str_contains pat t
     end.

(** [s.split(sep)] for a one-character separator: never empty. *)
Fixpoint str_split (sep : ascii) (s : string) : list string :=
  match s with
  | EmptyString => [EmptyString]
  | String c t =>
      if Ascii.eqb c sep then EmptyString :: str_split sep t
      else match str_split sep t with
           | [] => [String c EmptyString]
           | w :: ws => String c w :: ws
           end
  end.

Definition is_space (c : ascii) : bool :=
  let n := nat_of_ascii c in
  (n =? 32)%nat || ((9 <=? n)%nat && (n <=? 13)%nat).

Definition is_digit (c : ascii) : bool :=
  let n := nat_of_ascii c in (48 <=? n)%nat && (n <=? 57)%nat.

Fixpoint lstrip (s : list ascii) : list ascii :=
  match s with
  | c :: t => if is_space c then lstrip t else s
  | [] => []
  end.

Definition strip (s : list ascii) : list ascii := rev (lstrip (rev (lstrip s))).

(** The digits of a Python integer literal: at least one digit, single
    underscores allowed between digits. *)
Fixpoint py_digits (acc : Z) (after_digit : bool) (s : list ascii) : option Z :=
  match s with
  | [] => if after_digit then Some acc else None
  | c :: t =>
      if is_digit c then py_digits (10 * acc + (Z.of_nat (nat_of_ascii c) - 48)) true t
      else if Ascii.eqb c "_" && after_digit then py_digits acc false t
      else None
  end.

(** [int(text)]: surrounding white space, an optional sign, decimal digits;
    anything else raises [ValueError]. *)
Definition py_int (s : string) : result Z :=
  let body := strip (list_ascii_of_string s) in
  let signed :=
    match body with
    | c :: t =>
        if Ascii.eqb c "-" then option_map Z.opp (py_digits 0 false t)
        else if Ascii.eqb c "+" then py_digits 0 false t
        else py_digits 0 false body
    | [] => None
    end in
  match signed with Some z => inr z | None => inl ValueError end.

(** [str(n)] for an integer, as [json.dumps] prints it. *)
Definition str_of_Z (z : Z) : string := NilZero.string_of_int (Z.to_int z).

(** ** Constants *)

Module constants.
(** Modelled from the spec: the module [constants] of the model package is
    not among the sources.  The peril ids are the OED codes of river flood,
    flash flood and storm surge, which the copy of that module in
    [useful_scripts/event_footprint.py] takes from [OASIS_PERILS] and which
    the default of [locperilscovered] lists. *)
Definition FLUVIAL_ID : string := "ORF".
Definition PLUVIAL_ID : string := "OSF".
Definition COASTAL_ID : string := "WSS".
End constants.

Module oasislmf.
(** Modelled from the spec: the values of the [oasislmf] package the lookup
    imports: the ids of [SUPPORTED_COVERAGE_TYPES] (the ones [__init__]
    maps the vulnerability table onto), of the [PERIL_GROUPS] the peril
    resolver expands, of the five [OASIS_KEYS_STATUS] entries of the status
    table, and [OASIS_KEYS_FL]. *)
Definition buildings_id : Z := 1.
Definition contents_id : Z := 3.
Definition bi_id : Z := 4.

(** The coverage names by id; the keys frame holds no other id than the
    three of [coverages]. *)
Definition SUPPORTED_COVERAGE_TYPES_BY_ID (id : Z) : string :=
  if id =? buildings_id then "buildings"
  else if id =? 2 then "other"
  else if id =? contents_id then "contents"
  else if id =? bi_id then "bi"
  else EmptyString.

Definition PERIL_GROUP_all : string := "AA1".
Definition PERIL_GROUP_flood_wo_storm_surge : string := "OO1".
Definition PERIL_GROUP_windstorm_w_storm_surge : string := "WW1".

Definition STATUS_success : string := "success".
Definition STATUS_notatrisk : string := "notatrisk".
Definition STATUS_fail_v : string := "fail_v".
Definition STATUS_fail_ap : string := "fail_ap".
Definition STATUS_fail : string := "fail".
Definition OASIS_KEYS_FL : string := "fail".
End oasislmf.

Import constants oasislmf.

(** [FLUVIAL_ID + ";" + PLUVIAL_ID + ";" + COASTAL_ID]. *)
Definition ALL_PERILS : string :=
  FLUVIAL_ID +:+ ";" +:+ PLUVIAL_ID +:+ ";" +:+ COASTAL_ID.

(** ** DataFrame operations *)

(** [df.loc[mask, column] = value] for a mask computed row by row. *)
Definition loc_assign {A} (mask : A -> bool) (upd : A -> A) (df : list A) : list A :=
  map (fun r => if mask r then upd r else r) df.

(** [left.merge(right, how="left")]: every left row once per matching right
    row, in the order of the right frame, and once with the right columns
    missing when nothing matches. *)
Definition merge_left {A B} (on : A -> B -> bool) (join : A -> option B -> A)
    (left : list A) (right : list B) : list A :=
  flat_map (fun a =>
              match List.filter (on a) right with
              | [] => [join a None]
              | ms => map (fun b => join a (Some b)) ms
              end) left.

(** [left.merge(right, how="inner")], keeping of each result row what the
    caller asks for. *)
Definition merge_inner {A B C} (on : A -> B -> bool) (join : A -> B -> C)
    (left : list A) (right : list B) : list C :=
  flat_map (fun a => map (join a) (List.filter (on a) right)) left.

(** [series.isin(values)]. *)
Definition isin `{EqDecision A} (x : A) (values : list A) : bool :=
  bool_decide (x ∈ values).

(** [series.unique()]. *)
Definition unique `{EqDecision A} (s : list A) : list A := remove_dups s.

(** ** Reference tables *)

(** A cell of the [peril_type] column of the vulnerability table: the
    integer code of the file, or the text [__init__] puts in its place. *)
Inductive cell : Type :=
  | CInt (z : Z)
  | CStr (s : string).

Definition cell_is_int (c : cell) (z : Z) : bool :=
  match c with CInt y => y =? z | CStr _ => false end.

Definition cell_is_str (c : cell) (s : string) : bool :=
  match c with CInt _ => false | CStr t => String.eqb t s end.

(** Modelled from the spec: the columns of [vulnerability_dict.csv], which is
    not among the sources: the four join columns and the id they select. *)
Record VulnerabilityRow : Type := mkVulnerabilityRow {
  v_mcm_code : Z;
  v_coveragetype_id : Z;
  v_peril_type : cell;
  v_user_vulnerability_id : Z;
  v_vulnerability_id : Z
}.

(** Modelled from the spec: the columns of [yearbuilt.csv]. *)
Record YearbuiltRow : Type := mkYearbuiltRow {
  yb_yearbuilt : Z;
  yb_yearbuilt_cat : string
}.

(** Modelled from the spec: the columns of [MCM_OED_residential.csv]. *)
Record McmResRow : Type := mkMcmResRow {
  mr_building_cat : string;
  mr_yearbuilt_cat : string;
  mr_mcm_code : Z
}.

(** Modelled from the spec: the columns of [MCM_OED_nonresidential.csv]. *)
Record McmNonresRow : Type := mkMcmNonresRow {
  mn_occupancycode : Z;
  mn_mcm_code : Z
}.

(** [postcode_dict.csv] after the renaming of its columns in [__init__]. *)
Record PostcodeRow : Type := mkPostcodeRow {
  p_postalcode : string;
  p_pc_lat : option Q;
  p_pc_lon : option Q
}.

(** [wet_area_peril.parquet], with the columns the script
    [useful_scripts/hack_wet_area_peril.py] writes. *)
Record AtRiskRow : Type := mkAtRiskRow {
  ar_lat_id : Z;
  ar_lon_id : Z;
  ar_peril_id : string
}.

#[global] Instance AtRiskRow_eq_dec : EqDecision AtRiskRow.
Proof. solve_decision. Defined.

(** The tables the lookup object holds. *)
Record KeysLookup : Type := mkKeysLookup {
  vulnerability_df : list VulnerabilityRow;
  mcm_res_df : list McmResRow;
  mcm_nonres_df : list McmNonresRow;
  postcode_df : list PostcodeRow;
  yearbuilt_df : list YearbuiltRow;
  at_risk_df : list AtRiskRow
}.

Definition set_at_risk_df (t : list AtRiskRow) (self : KeysLookup) : KeysLookup :=
  {| vulnerability_df := vulnerability_df self; mcm_res_df := mcm_res_df self;
     mcm_nonres_df := mcm_nonres_df self; postcode_df := postcode_df self;
     yearbuilt_df := yearbuilt_df self; at_risk_df := t |}.

Definition set_v_coveragetype_id (c : Z) (v : VulnerabilityRow) : VulnerabilityRow :=
  {| v_mcm_code := v_mcm_code v; v_coveragetype_id := c; v_peril_type := v_peril_type v;
     v_user_vulnerability_id := v_user_vulnerability_id v;
     v_vulnerability_id := v_vulnerability_id v |}.

Definition set_v_peril_type (p : cell) (v : VulnerabilityRow) : VulnerabilityRow :=
  {| v_mcm_code := v_mcm_code v; v_coveragetype_id := v_coveragetype_id v; v_peril_type := p;
     v_user_vulnerability_id := v_user_vulnerability_id v;
     v_vulnerability_id := v_vulnerability_id v |}.

(** [__init__], "Reformulate in pandas dataframe": the coverage and peril
    codes of the file become the ids the keys frame uses. *)
Definition init_vulnerability_df (csv : list VulnerabilityRow) : list VulnerabilityRow :=
  let df := loc_assign (fun v => v_coveragetype_id v =? 1) (set_v_coveragetype_id buildings_id) csv in
  let df := loc_assign (fun v => v_coveragetype_id v =? 3) (set_v_coveragetype_id contents_id) df in
  let df := loc_assign (fun v => v_coveragetype_id v =? 4) (set_v_coveragetype_id bi_id) df in
  let df := loc_assign (fun v => cell_is_int (v_peril_type v) 1)
                       (set_v_peril_type (CStr FLUVIAL_ID)) df in
  let df := loc_assign (fun v => cell_is_int (v_peril_type v) 2)
                       (set_v_peril_type (CStr PLUVIAL_ID)) df in
  let df := loc_assign (fun v => cell_is_int (v_peril_type v) 3)
                       (set_v_peril_type (CStr COASTAL_ID)) df in
  loc_assign (fun v => cell_is_int (v_peril_type v) (-9999))
             (set_v_peril_type (CStr ALL_PERILS)) df.

(** [__init__]: the postcodes of the centroid table lose their spaces and
    are put in upper case. *)
Definition init_postcode_df (csv : list PostcodeRow) : list PostcodeRow :=
  map (fun p => {| p_postalcode := str_upper (str_remove_spaces (p_postalcode p));
                   p_pc_lat := p_pc_lat p; p_pc_lon := p_pc_lon p |}) csv.

(** [__init__] on the contents of the six files it reads. *)
Definition init (vulnerability_csv : list VulnerabilityRow) (mcm_res_csv : list McmResRow)
    (mcm_nonres_csv : list McmNonresRow) (postcode_csv : list PostcodeRow)
    (yearbuilt_csv : list YearbuiltRow) (wet_area_peril : list AtRiskRow) : KeysLookup :=
  {| vulnerability_df := init_vulnerability_df vulnerability_csv;
     mcm_res_df := mcm_res_csv;
     mcm_nonres_df := mcm_nonres_csv;
     postcode_df := init_postcode_df postcode_csv;
     yearbuilt_df := yearbuilt_csv;
     at_risk_df := wet_area_peril |}.

Definition coverages : list Z := [buildings_id; contents_id; bi_id].
Definition perils : list string := [FLUVIAL_ID; PLUVIAL_ID; COASTAL_ID].

(** ** Locations *)

(** A row of the locations frame as it reaches [process_locations], columns
    in lower case.  [None] is a column the file does not have (and, for a
    float column, also a missing value). *)
Record RawLocation : Type := mkRawLocation {
  r_loc_id : Z;
  r_accnumber : Z;
  r_portnumber : Z;
  r_locnumber : Z;
  r_locuserdef1 : option Z;
  r_locperilscovered : option string;
  r_buildingtype : option Z;
  r_occupancycode : option Z;
  r_constructioncode : option Z;
  r_numberofstoreys : option Z;
  r_floorsoccupied : option string;
  r_firstfloorheight : option Q;
  r_firstfloorheightunit : option Z;
  r_yearbuilt : option Z;
  r_bipoi : option Q;
  r_latitude : option Q;
  r_longitude : option Q;
  r_postalcode : option string
}.

(** A row of [loc_df].  [F] is the type of the [floorsoccupied] column: text
    until [get_floors_occupied] has run, an integer afterwards. *)
Record Location (F : Type) : Type := mkLocation {
  loc_id : Z;
  accnumber : Z;
  portnumber : Z;
  locnumber : Z;
  user_vulnerability_id : Z;
  locperilscovered : string;
  buildingtype : Z;
  occupancycode : Z;
  constructioncode : Z;
  numberofstoreys : Z;
  floorsoccupied : F;
  firstfloorheight : Q;
  firstfloorheightunit : Z;
  yearbuilt : Z;
  bipoi : Q;
  latitude : option Q;
  longitude : option Q;
  postalcode : string;
  mobilehome_cat : bool;
  yearbuilt_cat : option string;
  building_cat : option string;
  mcm_code : option Z;
  ffh_cat : option Q;
  bipoi_cat : option Z;
  pc_lat : option Q;
  pc_lon : option Q
}.

Arguments mkLocation {F}.
Arguments loc_id {F}.
Arguments accnumber {F}.
Arguments portnumber {F}.
Arguments locnumber {F}.
Arguments user_vulnerability_id {F}.
Arguments locperilscovered {F}.
Arguments buildingtype {F}.
Arguments occupancycode {F}.
Arguments constructioncode {F}.
Arguments numberofstoreys {F}.
Arguments floorsoccupied {F}.
Arguments firstfloorheight {F}.
Arguments firstfloorheightunit {F}.
Arguments yearbuilt {F}.
Arguments bipoi {F}.
Arguments latitude {F}.
Arguments longitude {F}.
Arguments postalcode {F}.
Arguments mobilehome_cat {F}.
Arguments yearbuilt_cat {F}.
Arguments building_cat {F}.
Arguments mcm_code {F}.
Arguments ffh_cat {F}.
Arguments bipoi_cat {F}.
Arguments pc_lat {F}.
Arguments pc_lon {F}.

Definition set_locperilscovered {F} v (l : Location F) : Location F :=
  {| loc_id := loc_id l; accnumber := accnumber l; portnumber := portnumber l;
     locnumber := locnumber l; user_vulnerability_id := user_vulnerability_id l;
     locperilscovered := v; buildingtype := buildingtype l;
     occupancycode := occupancycode l; constructioncode := constructioncode l;
     numberofstoreys := numberofstoreys l; floorsoccupied := floorsoccupied l;
     firstfloorheight := firstfloorheight l;
     firstfloorheightunit := firstfloorheightunit l; yearbuilt := yearbuilt l;
     bipoi := bipoi l; latitude := latitude l; longitude := longitude l;
     postalcode := postalcode l; mobilehome_cat := mobilehome_cat l;
     yearbuilt_cat := yearbuilt_cat l; building_cat := building_cat l;
     mcm_code := mcm_code l; ffh_cat := ffh_cat l; bipoi_cat := bipoi_cat l;
     pc_lat := pc_lat l; pc_lon := pc_lon l |}.

Definition set_numberofstoreys {F} v (l : Location F) : Location F :=
  {| loc_id := loc_id l; accnumber := accnumber l; portnumber := portnumber l;
     locnumber := locnumber l; user_vulnerability_id := user_vulnerability_id l;
     locperilscovered := locperilscovered l; buildingtype := buildingtype l;
     occupancycode := occupancycode l; constructioncode := constructioncode l;
     numberofstoreys := v; floorsoccupied := floorsoccupied l;
     firstfloorheight := firstfloorheight l;
     firstfloorheightunit := firstfloorheightunit l; yearbuilt := yearbuilt l;
     bipoi := bipoi l; latitude := latitude l; longitude := longitude l;
     postalcode := postalcode l; mobilehome_cat := mobilehome_cat l;
     yearbuilt_cat := yearbuilt_cat l; building_cat := building_cat l;
     mcm_code := mcm_code l; ffh_cat := ffh_cat l; bipoi_cat := bipoi_cat l;
     pc_lat := pc_lat l; pc_lon := pc_lon l |}.

Definition set_firstfloorheight {F} v (l : Location F) : Location F :=
  {| loc_id := loc_id l; accnumber := accnumber l; portnumber := portnumber l;
     locnumber := locnumber l; user_vulnerability_id := user_vulnerability_id l;
     locperilscovered := locperilscovered l; buildingtype := buildingtype l;
     occupancycode := occupancycode l; constructioncode := constructioncode l;
     numberofstoreys := numberofstoreys l; floorsoccupied := floorsoccupied l;
     firstfloorheight := v; firstfloorheightunit := firstfloorheightunit l;
     yearbuilt := yearbuilt l; bipoi := bipoi l; latitude := latitude l;
     longitude := longitude l; postalcode := postalcode l;
     mobilehome_cat := mobilehome_cat l; yearbuilt_cat := yearbuilt_cat l;
     building_cat := building_cat l; mcm_code := mcm_code l; ffh_cat := ffh_cat l;
     bipoi_cat := bipoi_cat l; pc_lat := pc_lat l; pc_lon := pc_lon l |}.

Definition set_latitude {F} v (l : Location F) : Location F :=
  {| loc_id := loc_id l; accnumber := accnumber l; portnumber := portnumber l;
     locnumber := locnumber l; user_vulnerability_id := user_vulnerability_id l;
     locperilscovered := locperilscovered l; buildingtype := buildingtype l;
     occupancycode := occupancycode l; constructioncode := constructioncode l;
     numberofstoreys := numberofstoreys l; floorsoccupied := floorsoccupied l;
     firstfloorheight := firstfloorheight l;
     firstfloorheightunit := firstfloorheightunit l; yearbuilt := yearbuilt l;
     bipoi := bipoi l; latitude := v; longitude := longitude l; postalcode := postalcode l;
     mobilehome_cat := mobilehome_cat l; yearbuilt_cat := yearbuilt_cat l;
     building_cat := building_cat l; mcm_code := mcm_code l; ffh_cat := ffh_cat l;
     bipoi_cat := bipoi_cat l; pc_lat := pc_lat l; pc_lon := pc_lon l |}.

Definition set_longitude {F} v (l : Location F) : Location F :=
  {| loc_id := loc_id l; accnumber := accnumber l; portnumber := portnumber l;
     locnumber := locnumber l; user_vulnerability_id := user_vulnerability_id l;
     locperilscovered := locperilscovered l; buildingtype := buildingtype l;
     occupancycode := occupancycode l; constructioncode := constructioncode l;
     numberofstoreys := numberofstoreys l; floorsoccupied := floorsoccupied l;
     firstfloorheight := firstfloorheight l;
     firstfloorheightunit := firstfloorheightunit l; yearbuilt := yearbuilt l;
     bipoi := bipoi l; latitude := latitude l; longitude := v; postalcode := postalcode l;
     mobilehome_cat := mobilehome_cat l; yearbuilt_cat := yearbuilt_cat l;
     building_cat := building_cat l; mcm_code := mcm_code l; ffh_cat := ffh_cat l;
     bipoi_cat := bipoi_cat l; pc_lat := pc_lat l; pc_lon := pc_lon l |}.

Definition set_postalcode {F} v (l : Location F) : Location F :=
  {| loc_id := loc_id l; accnumber := accnumber l; portnumber := portnumber l;
     locnumber := locnumber l; user_vulnerability_id := user_vulnerability_id l;
     locperilscovered := locperilscovered l; buildingtype := buildingtype l;
     occupancycode := occupancycode l; constructioncode := constructioncode l;
     numberofstoreys := numberofstoreys l; floorsoccupied := floorsoccupied l;
     firstfloorheight := firstfloorheight l;
     firstfloorheightunit := firstfloorheightunit l; yearbuilt := yearbuilt l;
     bipoi := bipoi l; latitude := latitude l; longitude := longitude l; postalcode := v;
     mobilehome_cat := mobilehome_cat l; yearbuilt_cat := yearbuilt_cat l;
     building_cat := building_cat l; mcm_code := mcm_code l; ffh_cat := ffh_cat l;
     bipoi_cat := bipoi_cat l; pc_lat := pc_lat l; pc_lon := pc_lon l |}.

Definition set_mobilehome_cat {F} v (l : Location F) : Location F :=
  {| loc_id := loc_id l; accnumber := accnumber l; portnumber := portnumber l;
     locnumber := locnumber l; user_vulnerability_id := user_vulnerability_id l;
     locperilscovered := locperilscovered l; buildingtype := buildingtype l;
     occupancycode := occupancycode l; constructioncode := constructioncode l;
     numberofstoreys := numberofstoreys l; floorsoccupied := floorsoccupied l;
     firstfloorheight := firstfloorheight l;
     firstfloorheightunit := firstfloorheightunit l; yearbuilt := yearbuilt l;
     bipoi := bipoi l; latitude := latitude l; longitude := longitude l;
     postalcode := postalcode l; mobilehome_cat := v; yearbuilt_cat := yearbuilt_cat l;
     building_cat := building_cat l; mcm_code := mcm_code l; ffh_cat := ffh_cat l;
     bipoi_cat := bipoi_cat l; pc_lat := pc_lat l; pc_lon := pc_lon l |}.

Definition set_yearbuilt_cat {F} v (l : Location F) : Location F :=
  {| loc_id := loc_id l; accnumber := accnumber l; portnumber := portnumber l;
     locnumber := locnumber l; user_vulnerability_id := user_vulnerability_id l;
     locperilscovered := locperilscovered l; buildingtype := buildingtype l;
     occupancycode := occupancycode l; constructioncode := constructioncode l;
     numberofstoreys := numberofstoreys l; floorsoccupied := floorsoccupied l;
     firstfloorheight := firstfloorheight l;
     firstfloorheightunit := firstfloorheightunit l; yearbuilt := yearbuilt l;
     bipoi := bipoi l; latitude := latitude l; longitude := longitude l;
     postalcode := postalcode l; mobilehome_cat := mobilehome_cat l; yearbuilt_cat := v;
     building_cat := building_cat l; mcm_code := mcm_code l; ffh_cat := ffh_cat l;
     bipoi_cat := bipoi_cat l; pc_lat := pc_lat l; pc_lon := pc_lon l |}.

Definition set_building_cat {F} v (l : Location F) : Location F :=
  {| loc_id := loc_id l; accnumber := accnumber l; portnumber := portnumber l;
     locnumber := locnumber l; user_vulnerability_id := user_vulnerability_id l;
     locperilscovered := locperilscovered l; buildingtype := buildingtype l;
     occupancycode := occupancycode l; constructioncode := constructioncode l;
     numberofstoreys := numberofstoreys l; floorsoccupied := floorsoccupied l;
     firstfloorheight := firstfloorheight l;
     firstfloorheightunit := firstfloorheightunit l; yearbuilt := yearbuilt l;
     bipoi := bipoi l; latitude := latitude l; longitude := longitude l;
     postalcode := postalcode l; mobilehome_cat := mobilehome_cat l;
     yearbuilt_cat := yearbuilt_cat l; building_cat := v; mcm_code := mcm_code l;
     ffh_cat := ffh_cat l; bipoi_cat := bipoi_cat l; pc_lat := pc_lat l;
     pc_lon := pc_lon l |}.

Definition set_mcm_code {F} v (l : Location F) : Location F :=
  {| loc_id := loc_id l; accnumber := accnumber l; portnumber := portnumber l;
     locnumber := locnumber l; user_vulnerability_id := user_vulnerability_id l;
     locperilscovered := locperilscovered l; buildingtype := buildingtype l;
     occupancycode := occupancycode l; constructioncode := constructioncode l;
     numberofstoreys := numberofstoreys l; floorsoccupied := floorsoccupied l;
     firstfloorheight := firstfloorheight l;
     firstfloorheightunit := firstfloorheightunit l; yearbuilt := yearbuilt l;
     bipoi := bipoi l; latitude := latitude l; longitude := longitude l;
     postalcode := postalcode l; mobilehome_cat := mobilehome_cat l;
     yearbuilt_cat := yearbuilt_cat l; building_cat := building_cat l; mcm_code := v;
     ffh_cat := ffh_cat l; bipoi_cat := bipoi_cat l; pc_lat := pc_lat l;
     pc_lon := pc_lon l |}.

Definition set_ffh_cat {F} v (l : Location F) : Location F :=
  {| loc_id := loc_id l; accnumber := accnumber l; portnumber := portnumber l;
     locnumber := locnumber l; user_vulnerability_id := user_vulnerability_id l;
     locperilscovered := locperilscovered l; buildingtype := buildingtype l;
     occupancycode := occupancycode l; constructioncode := constructioncode l;
     numberofstoreys := numberofstoreys l; floorsoccupied := floorsoccupied l;
     firstfloorheight := firstfloorheight l;
     firstfloorheightunit := firstfloorheightunit l; yearbuilt := yearbuilt l;
     bipoi := bipoi l; latitude := latitude l; longitude := longitude l;
     postalcode := postalcode l; mobilehome_cat := mobilehome_cat l;
     yearbuilt_cat := yearbuilt_cat l; building_cat := building_cat l;
     mcm_code := mcm_code l; ffh_cat := v; bipoi_cat := bipoi_cat l; pc_lat := pc_lat l;
     pc_lon := pc_lon l |}.

Definition set_bipoi_cat {F} v (l : Location F) : Location F :=
  {| loc_id := loc_id l; accnumber := accnumber l; portnumber := portnumber l;
     locnumber := locnumber l; user_vulnerability_id := user_vulnerability_id l;
     locperilscovered := locperilscovered l; buildingtype := buildingtype l;
     occupancycode := occupancycode l; constructioncode := constructioncode l;
     numberofstoreys := numberofstoreys l; floorsoccupied := floorsoccupied l;
     firstfloorheight := firstfloorheight l;
     firstfloorheightunit := firstfloorheightunit l; yearbuilt := yearbuilt l;
     bipoi := bipoi l; latitude := latitude l; longitude := longitude l;
     postalcode := postalcode l; mobilehome_cat := mobilehome_cat l;
     yearbuilt_cat := yearbuilt_cat l; building_cat := building_cat l;
     mcm_code := mcm_code l; ffh_cat := ffh_cat l; bipoi_cat := v; pc_lat := pc_lat l;
     pc_lon := pc_lon l |}.

Definition set_pc_lat {F} v (l : Location F) : Location F :=
  {| loc_id := loc_id l; accnumber := accnumber l; portnumber := portnumber l;
     locnumber := locnumber l; user_vulnerability_id := user_vulnerability_id l;
     locperilscovered := locperilscovered l; buildingtype := buildingtype l;
     occupancycode := occupancycode l; constructioncode := constructioncode l;
     numberofstoreys := numberofstoreys l; floorsoccupied := floorsoccupied l;
     firstfloorheight := firstfloorheight l;
     firstfloorheightunit := firstfloorheightunit l; yearbuilt := yearbuilt l;
     bipoi := bipoi l; latitude := latitude l; longitude := longitude l;
     postalcode := postalcode l; mobilehome_cat := mobilehome_cat l;
     yearbuilt_cat := yearbuilt_cat l; building_cat := building_cat l;
     mcm_code := mcm_code l; ffh_cat := ffh_cat l; bipoi_cat := bipoi_cat l; pc_lat := v;
     pc_lon := pc_lon l |}.

Definition set_pc_lon {F} v (l : Location F) : Location F :=
  {| loc_id := loc_id l; accnumber := accnumber l; portnumber := portnumber l;
     locnumber := locnumber l; user_vulnerability_id := user_vulnerability_id l;
     locperilscovered := locperilscovered l; buildingtype := buildingtype l;
     occupancycode := occupancycode l; constructioncode := constructioncode l;
     numberofstoreys := numberofstoreys l; floorsoccupied := floorsoccupied l;
     firstfloorheight := firstfloorheight l;
     firstfloorheightunit := firstfloorheightunit l; yearbuilt := yearbuilt l;
     bipoi := bipoi l; latitude := latitude l; longitude := longitude l;
     postalcode := postalcode l; mobilehome_cat := mobilehome_cat l;
     yearbuilt_cat := yearbuilt_cat l; building_cat := building_cat l;
     mcm_code := mcm_code l; ffh_cat := ffh_cat l; bipoi_cat := bipoi_cat l;
     pc_lat := pc_lat l; pc_lon := v |}.

Definition set_floorsoccupied {F G} (v : G) (l : Location F) : Location G :=
  {| loc_id := loc_id l; accnumber := accnumber l; portnumber := portnumber l;
     locnumber := locnumber l; user_vulnerability_id := user_vulnerability_id l;
     locperilscovered := locperilscovered l; buildingtype := buildingtype l;
     occupancycode := occupancycode l; constructioncode := constructioncode l;
     numberofstoreys := numberofstoreys l; floorsoccupied := v;
     firstfloorheight := firstfloorheight l;
     firstfloorheightunit := firstfloorheightunit l; yearbuilt := yearbuilt l;
     bipoi := bipoi l; latitude := latitude l; longitude := longitude l;
     postalcode := postalcode l; mobilehome_cat := mobilehome_cat l;
     yearbuilt_cat := yearbuilt_cat l; building_cat := building_cat l;
     mcm_code := mcm_code l; ffh_cat := ffh_cat l; bipoi_cat := bipoi_cat l;
     pc_lat := pc_lat l; pc_lon := pc_lon l |}.

(** ** Field normalizer *)

(** The three branches of the defaulting loop of [process_locations], by the
    type of the field: a text field takes its default when the column is
    absent or the cell is the empty text, an integer field when the column
    is absent or the cell is zero, a float field when the column is absent
    or the cell is NaN. *)
Definition default_str (d : string) (x : option string) : string :=
  match x with
  | Some s => if String.eqb s EmptyString then d else s
  | None => d
  end.

Definition default_int (d : Z) (x : option Z) : Z :=
  match x with
  | Some z => if z =? 0 then d else z
  | None => d
  end.

Definition default_float (d : Q) (x : option Q) : Q :=
  match x with
  | Some q => q
  | None => d
  end.

(** [process_locations] up to the projection on [USED_LOC_DF_COLUMNS], with
    [default_field_values]. *)
Definition normalise (r : RawLocation) : Location string :=
  {| loc_id := r_loc_id r;
     accnumber := r_accnumber r;
     portnumber := r_portnumber r;
     locnumber := r_locnumber r;
     user_vulnerability_id := match r_locuserdef1 r with Some z => z | None => 0 end;
     locperilscovered := default_str "ORF;OSF;WSS" (r_locperilscovered r);
     buildingtype := default_int 0 (r_buildingtype r);
     occupancycode := default_int 1000 (r_occupancycode r);
     constructioncode := default_int 5000 (r_constructioncode r);
     numberofstoreys := default_int 0 (r_numberofstoreys r);
     floorsoccupied := default_str "0" (r_floorsoccupied r);
     firstfloorheight := default_float (-999) (r_firstfloorheight r);
     firstfloorheightunit := default_int 1 (r_firstfloorheightunit r);
     yearbuilt := default_int 0 (r_yearbuilt r);
     bipoi := default_float 365 (r_bipoi r);
     latitude := Some (default_float 0 (r_latitude r));
     longitude := Some (default_float 0 (r_longitude r));
     postalcode := default_str "-1" (r_postalcode r);
     mobilehome_cat := false;
     yearbuilt_cat := None;
     building_cat := None;
     mcm_code := None;
     ffh_cat := None;
     bipoi_cat := None;
     pc_lat := None;
     pc_lon := None |}.

(** ** Classification engine *)

Definition get_mobile_home {F} (loc_df : list (Location F)) : list (Location F) :=
  let loc_df := map (set_mobilehome_cat false) loc_df in
  loc_assign (fun l => (5350 <=? constructioncode l) && (constructioncode l <? 5400)
                       && (occupancycode l <? 1100))
             (set_mobilehome_cat true) loc_df.

Definition set_mcm_and_cat {F} (m : Z) (c : string) (l : Location F) : Location F :=
  set_building_cat (Some c) (set_mcm_code (Some m) l).

Definition get_mcm_code_residential {F} (self : KeysLookup) (loc_df_res : list (Location F))
    : list (Location F) :=
  (* Get YearBuilt category *)
  let df := merge_left (fun l y => yearbuilt l =? yb_yearbuilt y)
                       (fun l y => set_yearbuilt_cat (option_map yb_yearbuilt_cat y) l)
                       loc_df_res (yearbuilt_df self) in
  (* Set building type for mobile homes *)
  let df := loc_assign mobilehome_cat (set_building_cat (Some "bungalow"%string)) df in
  (* set 1 story detached *)
  let df := loc_assign (fun l => (buildingtype l =? 1) && (numberofstoreys l =? 1)
                                 && isnull (building_cat l))
                       (set_building_cat (Some "bungalow"%string)) df in
  (* set detached *)
  let df := loc_assign (fun l => (buildingtype l =? 1) && isnull (building_cat l))
                       (set_building_cat (Some "detached"%string)) df in
  (* set semi-detached *)
  let df := loc_assign (fun l => (buildingtype l =? 2) && isnull (building_cat l))
                       (set_building_cat (Some "semidetached"%string)) df in
  (* set terraced *)
  let df := loc_assign (fun l => ((buildingtype l =? 3) || (buildingtype l =? 4))
                                 && isnull (building_cat l))
                       (set_building_cat (Some "terraced"%string)) df in
  (* set multi story bungalow *)
  let df := loc_assign (fun l => (buildingtype l =? 5) && (1 <? numberofstoreys l)
                                 && isnull (building_cat l))
                       (set_building_cat (Some "detached"%string)) df in
  (* set bungalow *)
  let df := loc_assign (fun l => (buildingtype l =? 5) && isnull (building_cat l))
                       (set_building_cat (Some "bungalow"%string)) df in
  (* OVERRIDE flats *)
  let df := loc_assign (fun l => (occupancycode l =? 1052) || (occupancycode l =? 1055))
                       (set_building_cat (Some "flat"%string)) df in
  (* OVERRIDE terraced *)
  let df := loc_assign (fun l => occupancycode l =? 1056)
                       (set_building_cat (Some "terraced"%string)) df in
  (* Merge to get MCM code *)
  let df := merge_left (fun l m => str_eqb (building_cat l) (mr_building_cat m)
                                   && str_eqb (yearbuilt_cat l) (mr_yearbuilt_cat m))
                       (fun l m => set_mcm_code (option_map mr_mcm_code m) l)
                       df (mcm_res_df self) in
  (* OVERRIDE temporary lodging *)
  let df := loc_assign (fun l => occupancycode l =? 1053) (set_mcm_and_cat 51 "nonres") df in
  (* OVERRIDE group institutional housing *)
  let df := loc_assign (fun l => occupancycode l =? 1054) (set_mcm_and_cat 6 "nonres") df in
  (* Make remaining valid OccupancyCodes a general MCM code *)
  loc_assign (fun l => ((occupancycode l =? 1050) || (occupancycode l =? 1051)
                        || (occupancycode l =? 1000))
                       && isnull (building_cat l))
             (set_mcm_and_cat 1 "general_res") df.

Definition get_mcm_code_non_residential {F} (self : KeysLookup)
    (loc_df_nonres : list (Location F)) : list (Location F) :=
  let df := merge_left (fun l m => occupancycode l =? mn_occupancycode m)
                       (fun l m => set_mcm_code (option_map mn_mcm_code m) l)
                       loc_df_nonres (mcm_nonres_df self) in
  map (set_building_cat (Some "nonres"%string)) df.

Definition get_number_of_storeys {F} (loc_df : list (Location F)) : list (Location F) :=
  (* bungalows never modified by number of storeys *)
  let df := loc_assign (fun l => str_eqb (building_cat l) "bungalow")
                       (set_numberofstoreys 0) loc_df in
  (* default for detached/semi/terraced *)
  let df := loc_assign (fun l => (numberofstoreys l =? 0)
                                 && (str_eqb (building_cat l) "detached"
                                     || str_eqb (building_cat l) "semidetached"
                                     || str_eqb (building_cat l) "terraced"))
                       (set_numberofstoreys 2) df in
  (* flats default to 1 storey *)
  let df := loc_assign (fun l => (numberofstoreys l =? 0) && str_eqb (building_cat l) "flat")
                       (set_numberofstoreys 1) df in
  (* general residential always 0 *)
  let df := loc_assign (fun l => str_eqb (building_cat l) "general_res")
                       (set_numberofstoreys 0) df in
  (* sets defaults for nonresidential *)
  let df := loc_assign (fun l => (numberofstoreys l =? 0) && str_eqb (building_cat l) "nonres")
                       (set_numberofstoreys 1) df in
  (* cap at 6 storeys *)
  loc_assign (fun l => 6 <? numberofstoreys l) (set_numberofstoreys 6) df.

(** [min(values)]: raises on an empty list. *)
Definition py_min (l : list Z) : result Z :=
  match l with
  | [] => inl ValueError
  | z :: t => inr (fold_left Z.min t z)
  end.

Definition get_floors_occupied (floorsoccupied : string) : result Z :=
  let* values := mapM py_int (str_split ";" floorsoccupied) in
  let* floors := py_min values in
  let floors := Z.max floors 0 in
  let floors := Z.min 3 floors in
  inr floors.

(** A run of assignments [df.loc[mask, column] = bucket], one per bin, in
    program order. *)
Definition assign_bins {A B} (bins : list ((A -> bool) * B)) (set : B -> A -> A)
    (df : list A) : list A :=
  fold_left (fun df bin => loc_assign (fst bin) (set (snd bin)) df) bins df.

(** The bins whose mask holds of a row. *)
Definition bins_of {A B} (bins : list ((A -> bool) * B)) (r : A) : list B :=
  map snd (List.filter (fun bin => fst bin r) bins).

Definition residential_cat (c : option string) : bool :=
  str_eqb c "detached" || str_eqb c "semidetached" || str_eqb c "terraced"
  || str_eqb c "flat" || str_eqb c "bungalow" || str_eqb c "general_res".

(** The masks and buckets of [get_bi_poi], in program order. *)
Definition bi_poi_bins {F} : list ((Location F -> bool) * Z) :=
  let nonres l := str_eqb (building_cat l) "nonres" in
  let between lo hi l := Qgeb (bipoi l) lo && Qltb (bipoi l) hi in
  [ (* residential (ALE) *)
    (fun l => (Qgtb (bipoi l) 0 && Qleb (bipoi l) 183) && residential_cat (building_cat l), 1);
    (fun l => Qgtb (bipoi l) 183 && residential_cat (building_cat l), 183);
    (* nonresidential (BI) *)
    (fun l => (Qgtb (bipoi l) 0 && Qltb (bipoi l) 137) && nonres l, 0);
    (fun l => between 137%Q 228%Q l && nonres l, 137);
    (fun l => between 228%Q 319%Q l && nonres l, 228);
    (fun l => between 319%Q 411%Q l && nonres l, 319);
    (fun l => between 411%Q 502%Q l && nonres l, 411);
    (fun l => between 502%Q 593%Q l && nonres l, 502);
    (fun l => between 593%Q 684%Q l && nonres l, 593);
    (fun l => between 684%Q 776%Q l && nonres l, 684);
    (fun l => between 776%Q 867%Q l && nonres l, 776);
    (fun l => between 867%Q 958%Q l && nonres l, 867);
    (fun l => between 958%Q 1049%Q l && nonres l, 958);
    (fun l => Qgeb (bipoi l) 1049 && nonres l, 1049) ].

Definition get_bi_poi {F} (loc_df : list (Location F)) : list (Location F) :=
  assign_bins bi_poi_bins (fun b => set_bipoi_cat (Some b)) loc_df.

(** The masks and buckets of the last part of [get_first_floor_height], in
    program order. *)
Definition ffh_bins {F} : list ((Location F -> bool) * Q) :=
  let between lo hi l := Qgeb (firstfloorheight l) lo && Qltb (firstfloorheight l) hi in
  [ (between 0%Q 0.05%Q, 0%Q);
    (between 0.05%Q 0.15%Q, 0.05%Q);
    (between 0.15%Q 0.25%Q, 0.15%Q);
    (between 0.25%Q 0.35%Q, 0.25%Q);
    (between 0.35%Q 0.65%Q, 0.35%Q);
    (between 0.65%Q 1.35%Q, 0.65%Q);
    (between 1.35%Q 2.65%Q, 1.35%Q);
    (fun l => Qgeb (firstfloorheight l) 2.65, 2.65%Q) ].

(** [get_first_floor_height] before the bins: feet to metres, then the
    defaults for the sentinel -999. *)
Definition first_floor_height_metres {F} (loc_df : list (Location F)) : list (Location F) :=
  let unset l := Qeqb (firstfloorheight l) (-999) in
  (* correct feet entries *)
  let df := loc_assign (fun l => (firstfloorheightunit l =? 1) && negb (unset l))
                       (fun l => set_firstfloorheight (firstfloorheight l * 0.3048)%Q l)
                       loc_df in
  (* assign defaults *)
  let df := loc_assign (fun l => mobilehome_cat l && unset l)
                       (set_firstfloorheight 0.6%Q) df in
  let df := loc_assign (fun l => str_eqb (building_cat l) "nonres" && unset l)
                       (set_firstfloorheight 0.6%Q) df in
  loc_assign unset (set_firstfloorheight 0.3%Q) df.

Definition get_first_floor_height {F} (loc_df : list (Location F)) : list (Location F) :=
  let df := first_floor_height_metres loc_df in
  (* get ffh categories *)
  assign_bins ffh_bins (fun b => set_ffh_cat (Some b)) df.

(** ** Geocoder *)

(** A frame of float cells with named columns and index labels, as
    [loc_df.loc[mask, columns]] returns it. *)
Definition Frame : Type := list (nat * list (string * option Q)).

(** [frame.filter(items=...)]: the columns whose name is listed. *)
Definition frame_filter (items : list string) (fr : Frame) : Frame :=
  map (fun row => (fst row,
                   List.filter (fun c => isin (fst c) items) (snd row))) fr.

(** The cell an assignment [df.loc[mask, columns] = frame] stores at index
    [i] in column [col]: the frame is aligned on both axes, and a label it
    does not have gives NaN. *)
Definition frame_aligned_cell (fr : Frame) (i : nat) (col : string) : option Q :=
  match List.find (fun row => (fst row =? i)%nat) fr with
  | Some row =>
      match List.find (fun c => String.eqb (fst c) col) (snd row) with
      | Some c => snd c
      | None => None
      end
  | None => None
  end.

Definition get_latlon {F} (self : KeysLookup) (loc_df : list (Location F)) : list (Location F) :=
  (* Find postalcode lat/lon *)
  let loc_df := map (fun l => set_postalcode (str_upper (str_remove_spaces (postalcode l))) l)
                    loc_df in
  let loc_df := merge_left (fun l p => String.eqb (postalcode l) (p_postalcode p))
                           (fun l p => set_pc_lon (p ≫= p_pc_lon) (set_pc_lat (p ≫= p_pc_lat) l))
                           loc_df (postcode_df self) in
  (* Overwrite if supplied lat/lon is invalid *)
  let some_pc_lat := py_is (Series_all (map (fun l => isnull (pc_lat l)) loc_df)) (PyBool false) in
  let some_pc_lon := py_is (Series_all (map (fun l => isnull (pc_lon l)) loc_df)) (PyBool false) in
  let mask l := float_eqb (latitude l) 0 && float_eqb (longitude l) 0
                && some_pc_lat && some_pc_lon in
  let temp_ll : Frame :=
    omap (fun il => if mask (snd il)
                    then Some (fst il, [("pc_lat"%string, pc_lat (snd il));
                                        ("pc_lon"%string, pc_lon (snd il))])
                    else None)
         (imap pair loc_df) in
  let temp_ll := frame_filter ["latitude"; "longitude"]%string temp_ll in
  imap (fun i l => if mask l
                   then set_longitude (frame_aligned_cell temp_ll i "longitude")
                          (set_latitude (frame_aligned_cell temp_ll i "latitude") l)
                   else l) loc_df.

(** ** Peril resolver *)

Definition get_peril {F} (loc_df : list (Location F)) : list (Location F) :=
  (* Deal with peril groups *)
  let df := loc_assign (fun l => String.eqb (locperilscovered l) PERIL_GROUP_all)
                       (set_locperilscovered ALL_PERILS) loc_df in
  let df := loc_assign (fun l => String.eqb (locperilscovered l) PERIL_GROUP_flood_wo_storm_surge)
                       (set_locperilscovered (FLUVIAL_ID +:+ ";" +:+ PLUVIAL_ID)) df in
  loc_assign (fun l => String.eqb (locperilscovered l) PERIL_GROUP_windstorm_w_storm_surge)
             (set_locperilscovered COASTAL_ID) df.

(** ** Keys *)

(** A row of [keys_df]: the columns of the location it comes from, the
    coverage and peril of the candidate, and the columns the resolution
    adds. *)
Record Key : Type := mkKey {
  k_loc : Location Z;
  coveragetype_id : Z;
  peril_id : string;
  peril_type : option string;
  vulnerability_id : option Z;
  lat_id : option Z;
  lon_id : option Z;
  at_risk : bool;
  status : option string;
  message : option string
}.

(** A row of [keys_df] once [format_keys_df] has added its three columns. *)
Record FKey : Type := mkFKey {
  fk_key : Key;
  catchment_id : Z;
  area_peril_id : Z;
  model_data : string
}.

(** A row of the frame [process_locations] returns. *)
Record ResultKey : Type := mkResultKey {
  rk_loc_id : Z;
  rk_peril_id : string;
  rk_coverage_type : Z;
  rk_vulnerability_id : option Z;
  rk_status : option string;
  rk_message : option string;
  rk_model_data : string;
  rk_catchment_id : Z;
  rk_lat_id : option Z;
  rk_lon_id : option Z;
  rk_area_peril_id : Z
}.

Definition set_k_loc (v : Location Z) (k : Key) : Key :=
  {| k_loc := v; coveragetype_id := coveragetype_id k; peril_id := peril_id k;
     peril_type := peril_type k; vulnerability_id := vulnerability_id k;
     lat_id := lat_id k; lon_id := lon_id k; at_risk := at_risk k; status := status k;
     message := message k |}.

Definition set_peril_type (v : option string) (k : Key) : Key :=
  {| k_loc := k_loc k; coveragetype_id := coveragetype_id k; peril_id := peril_id k;
     peril_type := v; vulnerability_id := vulnerability_id k; lat_id := lat_id k;
     lon_id := lon_id k; at_risk := at_risk k; status := status k; message := message k |}.

Definition set_vulnerability_id (v : option Z) (k : Key) : Key :=
  {| k_loc := k_loc k; coveragetype_id := coveragetype_id k; peril_id := peril_id k;
     peril_type := peril_type k; vulnerability_id := v; lat_id := lat_id k;
     lon_id := lon_id k; at_risk := at_risk k; status := status k; message := message k |}.

Definition set_lat_id (v : option Z) (k : Key) : Key :=
  {| k_loc := k_loc k; coveragetype_id := coveragetype_id k; peril_id := peril_id k;
     peril_type := peril_type k; vulnerability_id := vulnerability_id k; lat_id := v;
     lon_id := lon_id k; at_risk := at_risk k; status := status k; message := message k |}.

Definition set_lon_id (v : option Z) (k : Key) : Key :=
  {| k_loc := k_loc k; coveragetype_id := coveragetype_id k; peril_id := peril_id k;
     peril_type := peril_type k; vulnerability_id := vulnerability_id k;
     lat_id := lat_id k; lon_id := v; at_risk := at_risk k; status := status k;
     message := message k |}.

Definition set_at_risk (v : bool) (k : Key) : Key :=
  {| k_loc := k_loc k; coveragetype_id := coveragetype_id k; peril_id := peril_id k;
     peril_type := peril_type k; vulnerability_id := vulnerability_id k;
     lat_id := lat_id k; lon_id := lon_id k; at_risk := v; status := status k;
     message := message k |}.

Definition set_status (v : option string) (k : Key) : Key :=
  {| k_loc := k_loc k; coveragetype_id := coveragetype_id k; peril_id := peril_id k;
     peril_type := peril_type k; vulnerability_id := vulnerability_id k;
     lat_id := lat_id k; lon_id := lon_id k; at_risk := at_risk k; status := v;
     message := message k |}.

Definition set_message (v : option string) (k : Key) : Key :=
  {| k_loc := k_loc k; coveragetype_id := coveragetype_id k; peril_id := peril_id k;
     peril_type := peril_type k; vulnerability_id := vulnerability_id k;
     lat_id := lat_id k; lon_id := lon_id k; at_risk := at_risk k; status := status k;
     message := v |}.

Definition set_fk_key (v : Key) (k : FKey) : FKey :=
  {| fk_key := v; catchment_id := catchment_id k; area_peril_id := area_peril_id k;
     model_data := model_data k |}.

Definition set_catchment_id (v : Z) (k : FKey) : FKey :=
  {| fk_key := fk_key k; catchment_id := v; area_peril_id := area_peril_id k;
     model_data := model_data k |}.

Definition set_model_data (v : string) (k : FKey) : FKey :=
  {| fk_key := fk_key k; catchment_id := catchment_id k; area_peril_id := area_peril_id k;
     model_data := v |}.

(** [keys_df.loc[mask, column] = value] for a column of the location. *)
Definition on_loc (f : Location Z -> Location Z) (k : Key) : Key := set_k_loc (f (k_loc k)) k.

Definition set_status_message (s m : string) (k : Key) : Key :=
  set_message (Some m) (set_status (Some s) k).

(** ** Key expander *)

(** The row [loc_df] holds for a location while the loop is at [peril] and
    [coverage]. *)
Definition candidate (peril : string) (coverage : Z) (l : Location Z) : Key :=
  {| k_loc := l; coveragetype_id := coverage; peril_id := peril; peril_type := None;
     vulnerability_id := None; lat_id := None; lon_id := None; at_risk := false;
     status := None; message := None |}.

(** The double loop of [process_locations] that fills [keys_df]. *)
Definition expand_keys (loc_df : list (Location Z)) : list Key :=
  fold_left
    (fun keys_df peril =>
       fold_left
         (fun keys_df coverage =>
            keys_df ++ map (candidate peril coverage)
                           (List.filter (fun l => str_contains peril (locperilscovered l))
                                        loc_df))
         coverages keys_df)
    perils [].

(** "remove values that would screw up lookup", the peril type for the merge
    and the two [fillna]s. *)
Definition suppress_fields (keys_df : list Key) : list Key :=
  let cat k := building_cat (k_loc k) in
  (* floorsoccupied if not (contents) & (flat | nonres) *)
  let df := loc_assign (fun k => negb (coveragetype_id k =? contents_id)
                                 || (negb (str_eqb (cat k) "flat")
                                     && negb (str_eqb (cat k) "nonres")))
                       (on_loc (set_floorsoccupied (-9999))) keys_df in
  (* bipoi_cat if not (bi) *)
  let df := loc_assign (fun k => negb (coveragetype_id k =? bi_id))
                       (on_loc (set_bipoi_cat (Some (-9999)))) df in
  (* numberofstoreys if (bi) | ((flats) & (contents)) *)
  let df := loc_assign (fun k => (coveragetype_id k =? bi_id)
                                 || (str_eqb (cat k) "flat"
                                     && (coveragetype_id k =? contents_id)))
                       (on_loc (set_numberofstoreys 0)) df in
  (* mcm_code if (bi) & (nonres) *)
  let df := loc_assign (fun k => (coveragetype_id k =? bi_id) && str_eqb (cat k) "nonres")
                       (on_loc (set_mcm_code (Some 0))) df in
  (* sort out peril types for merge *)
  let df := map (fun k => set_peril_type (Some (peril_id k)) k) df in
  let df := loc_assign (fun k => coveragetype_id k =? bi_id)
                       (set_peril_type (Some ALL_PERILS)) df in
  let df := map (on_loc (fun l => set_mcm_code (fillna (-1) (mcm_code l)) l)) df in
  map (on_loc (fun l => set_bipoi_cat (fillna (-1) (bipoi_cat l)) l)) df.

(** ** Vulnerability resolver *)

(** The join condition of [keys_df.merge(self.vulnerability_df, how="left")]:
    equality on every column the two frames share. *)
Definition vulnerability_on (k : Key) (v : VulnerabilityRow) : bool :=
  match mcm_code (k_loc k) with Some m => m =? v_mcm_code v | None => false end
  && (coveragetype_id k =? v_coveragetype_id v)
  && match peril_type k with Some p => cell_is_str (v_peril_type v) p | None => false end
  && (user_vulnerability_id (k_loc k) =? v_user_vulnerability_id v).

(** assign vulnerability_id *)
Definition assign_vulnerability_id (self : KeysLookup) (keys_df : list Key) : list Key :=
  merge_left vulnerability_on
             (fun k v => set_vulnerability_id (option_map v_vulnerability_id v) k)
             keys_df (vulnerability_df self).

Definition fillna_vulnerability_id (keys_df : list Key) : list Key :=
  map (fun k => set_vulnerability_id (fillna (-1) (vulnerability_id k)) k) keys_df.

(** ** Spatial risk index *)

(** [np.floor(x * 3600)], NaN for NaN. *)
Definition arc_second_id (x : option Q) : option Z :=
  option_map (fun q => Qfloor (q * 3600)) x.

Definition get_latlon_ids (keys_df : list Key) : list Key :=
  map (fun k => set_lon_id (arc_second_id (longitude (k_loc k)))
                  (set_lat_id (arc_second_id (latitude (k_loc k))) k)) keys_df.

(** "filter the self.at_risk_df to make the merge less expensive": the value
    the attribute [self.at_risk_df] is given. *)
Definition narrow_at_risk_df (keys_df : list Key) (at_risk_df : list AtRiskRow)
    : list AtRiskRow :=
  let at_risk_df :=
    List.filter (fun a => isin (Some (ar_lat_id a)) (unique (map lat_id keys_df))) at_risk_df in
  List.filter (fun a => isin (Some (ar_lon_id a)) (unique (map lon_id keys_df))) at_risk_df.

(** The join condition of the inner merge with the at-risk grid. *)
Definition at_risk_on (ik : nat * Key) (a : AtRiskRow) : bool :=
  match lat_id (snd ik) with Some y => y =? ar_lat_id a | None => false end
  && match lon_id (snd ik) with Some x => x =? ar_lon_id a | None => false end
  && String.eqb (peril_id (snd ik)) (ar_peril_id a).

(** assign notatrisk: [temp_df] keeps the index labels of the keys found in
    the grid. *)
Definition assign_at_risk (at_risk_df : list AtRiskRow) (keys_df : list Key) : list Key :=
  let temp_df : list nat :=
    merge_inner at_risk_on (fun ik _ => fst ik) (imap pair keys_df) at_risk_df in
  imap (fun i k => set_at_risk (isin i temp_df) k) keys_df.

(** ** Status classifier *)

(** sort keys status: the five assignments, in program order. *)
Definition sort_keys_status (keys_df : list Key) : list Key :=
  let valid k := negb (match vulnerability_id k with Some v => v =? -1 | None => false end) in
  let invalid k := match vulnerability_id k with Some v => v =? -1 | None => false end in
  let df := loc_assign (fun k => valid k && notna (lat_id k) && notna (lon_id k) && at_risk k)
                       (set_status_message STATUS_success EmptyString) keys_df in
  let df := loc_assign (fun k => valid k && notna (lat_id k) && notna (lon_id k)
                                 && negb (at_risk k))
                       (set_status_message STATUS_notatrisk
                          "area-peril and vulnerability valid, but location not exposed to this peril")
                       df in
  let df := loc_assign (fun k => invalid k && notna (lat_id k) && notna (lon_id k))
                       (set_status_message STATUS_fail_v "area-peril valid, vulnerability invalid")
                       df in
  let df := loc_assign (fun k => valid k && (isnull (lat_id k) || isnull (lon_id k)))
                       (set_status_message STATUS_fail_ap "vulnerability valid, area-peril invalid")
                       df in
  loc_assign (fun k => invalid k && (isnull (lat_id k) || isnull (lon_id k)))
             (set_status_message STATUS_fail "area-peril and vulnerability invalid") df.

(** ** Catchment sampling and the model data *)

Definition dq : string := String "034"%char EmptyString.

Definition json_int (name : string) (v : Z) : string :=
  dq +:+ name +:+ dq +:+ ":" +:+ str_of_Z v.

Definition json_str (name v : string) : string :=
  dq +:+ name +:+ dq +:+ ":" +:+ dq +:+ v +:+ dq.

(** [int(x)] for a float cell that holds a whole number or NaN. *)
Definition int_of_float (x : option Z) : result Z :=
  match x with Some z => inr z | None => inl ValueError end.

(** The [json.dumps] of [format_keys_df], with its separators. *)
Definition model_data_json (row : FKey) (catchment : Z) : result string :=
  let k := fk_key row in
  let* lat := int_of_float (lat_id k) in
  let* lon := int_of_float (lon_id k) in
  let* vid := int_of_float (vulnerability_id k) in
  inr ("{" +:+ json_int "lat_id" lat
       +:+ "," +:+ json_int "lon_id" lon
       +:+ "," +:+ json_int "catchment_id" catchment
       +:+ "," +:+ json_int "vulnerability_id" vid
       +:+ "," +:+ json_int "user_vulnerability_id" (user_vulnerability_id (k_loc k))
       +:+ "," +:+ json_str "peril_id" (peril_id k)
       +:+ "," +:+ json_str "coverage" (SUPPORTED_COVERAGE_TYPES_BY_ID (coveragetype_id k))
       +:+ "," +:+ json_int "coverage_type_id" (coveragetype_id k)
       +:+ "," +:+ json_int "loc_number" (locnumber (k_loc k))
       +:+ "," +:+ json_int "port_number" (portnumber (k_loc k))
       +:+ "," +:+ json_int "acc_number" (accnumber (k_loc k))
       +:+ "}").

(** The handler of [IndexError]: the key at index [i] fails. *)
Definition catchment_not_found (i : nat) (keys_df : list FKey) : list FKey :=
  let keys_df := alter (fun r => set_fk_key (set_status (Some OASIS_KEYS_FL) (fk_key r)) r)
                       i keys_df in
  alter (fun r => set_fk_key
                    (set_message (Some "could not find catchment for lat/lon"%string) (fk_key r)) r)
        i keys_df.

Section Resolution.

(** The band of [uk.tif] under a longitude and a latitude: the value of the
    pixel, or [None] when the read gives no pixel and the indexing raises
    [IndexError]. *)
Variable uk_tif : option Q -> option Q -> option Z.

(** The body of the loop of [format_keys_df] for the row [row] of
    [success_keys] with index label [i]. *)
Definition format_key (keys_df : list FKey) (i : nat) (row : FKey) : result (list FKey) :=
  match uk_tif (longitude (k_loc (fk_key row))) (latitude (k_loc (fk_key row))) with
  | Some catchment =>
      if catchment <? 0 then inr (catchment_not_found i keys_df)
      else
        let keys_df := alter (set_catchment_id catchment) i keys_df in
        let* json := model_data_json row catchment in
        inr (alter (set_model_data json) i keys_df)
  | None => inr (catchment_not_found i keys_df)
  end.

(** One turn of the loop: an exception of an earlier turn has ended it. *)
Definition format_step (acc : result (list FKey)) (ir : nat * FKey) : result (list FKey) :=
  let* keys_df := acc in format_key keys_df (fst ir) (snd ir).

Definition format_keys_df (keys_df : list Key) : result (list FKey) :=
  let keys_df :=
    map (fun k => {| fk_key := k; catchment_id := -1; area_peril_id := -1;
                     model_data := EmptyString |}) keys_df in
  let success_keys :=
    List.filter (fun ir => str_eqb (status (fk_key (snd ir))) STATUS_success)
                (imap pair keys_df) in
  fold_left format_step success_keys (inr keys_df).

(** The columns [process_locations] returns. *)
Definition result_key (r : FKey) : ResultKey :=
  let k := fk_key r in
  {| rk_loc_id := loc_id (k_loc k);
     rk_peril_id := peril_id k;
     rk_coverage_type := coveragetype_id k;
     rk_vulnerability_id := vulnerability_id k;
     rk_status := status k;
     rk_message := message k;
     rk_model_data := model_data r;
     rk_catchment_id := catchment_id r;
     rk_lat_id := lat_id k;
     rk_lon_id := lon_id k;
     rk_area_peril_id := area_peril_id r |}.

(** [process_locations] from the normalizer to the combined frame of
    residential and nonresidential locations. *)
Definition classify_buildings (self : KeysLookup) (loc_df : list RawLocation)
    : list (Location string) :=
  let loc_df := map normalise loc_df in
  (* mobile home *)
  let loc_df := get_mobile_home loc_df in
  (* mcm code residential *)
  let loc_df_res := List.filter (fun l => occupancycode l <? 1100) loc_df in
  let loc_df_res :=
    match loc_df_res with
    | [] => loc_df_res
    | _ => get_mcm_code_residential self loc_df_res
    end in
  (* mcm code non-residential *)
  let loc_df_nonres := List.filter (fun l => 1100 <=? occupancycode l) loc_df in
  let loc_df_nonres :=
    match loc_df_nonres with
    | [] => loc_df_nonres
    | _ => get_mcm_code_non_residential self loc_df_nonres
    end in
  (* combine res & nonres *)
  loc_df_res ++ loc_df_nonres.

(** [process_locations] from there to the locations the keys are made of.
    A frame without rows has no column [building_cat]: [KeyError]. *)
Definition enrich_locations (self : KeysLookup) (loc_df : list RawLocation)
    : result (list (Location Z)) :=
  match classify_buildings self loc_df with
  | [] => inl KeyError
  | loc_df =>
      (* number of storeys *)
      let loc_df := get_number_of_storeys loc_df in
      (* floors occupied *)
      let* loc_df :=
        mapM (fun l => let* floors := get_floors_occupied (floorsoccupied l) in
                       inr (set_floorsoccupied floors l)) loc_df in
      (* first floor height *)
      let loc_df := get_first_floor_height loc_df in
      (* bi poi *)
      let loc_df := get_bi_poi loc_df in
      (* get latlon *)
      let loc_df := get_latlon self loc_df in
      (* get peril *)
      inr (get_peril loc_df)
  end.

(** [process_locations] from the keys frame to the at-risk test. *)
Definition candidate_keys (self : KeysLookup) (loc_df : list (Location Z)) : list Key :=
  let keys_df := expand_keys loc_df in
  let keys_df := suppress_fields keys_df in
  let keys_df := assign_vulnerability_id self keys_df in
  let keys_df := get_latlon_ids keys_df in
  fillna_vulnerability_id keys_df.

(** [process_locations]: the lookup object it leaves behind, and the keys
    frame or the exception. *)
Definition process_locations (self : KeysLookup) (loc_df : list RawLocation)
    : KeysLookup * result (list ResultKey) :=
  match enrich_locations self loc_df with
  | inl e => (self, inl e)
  | inr loc_df =>
      let keys_df := candidate_keys self loc_df in
      (* filter the self.at_risk_df to make the merge less expensive *)
      let self := set_at_risk_df (narrow_at_risk_df keys_df (at_risk_df self)) self in
      (* assign notatrisk *)
      let keys_df := assign_at_risk (at_risk_df self) keys_df in
      let keys_df := sort_keys_status keys_df in
      (self, let* keys_df := format_keys_df keys_df in inr (map result_key keys_df))
  end.

End Resolution.

(** The keys frame of a call at the time [format_keys_df] samples the
    raster, from the locations the keys are made of. *)
Definition keys_at_sampling (self : KeysLookup) (loc_df : list (Location Z)) : list Key :=
  let keys_df := candidate_keys self loc_df in
  sort_keys_status (assign_at_risk (narrow_at_risk_df keys_df (at_risk_df self)) keys_df).

(** ** A worked example *)

Module Example1.

Definition self0 : KeysLookup :=
  init [ mkVulnerabilityRow 1 1 (CInt 1) 0 101; mkVulnerabilityRow 1 3 (CInt 2) 0 102;
         mkVulnerabilityRow 1 4 (CInt (-9999)) 0 104 ]
       [ mkMcmResRow "detached" "old" 7 ]
       [ mkMcmNonresRow 1100 20 ]
       [ mkPostcodeRow "ab1 2cd" (Some 51.5%Q) (Some (-0.1)%Q) ]
       [ mkYearbuiltRow 1900 "old" ]
       [ mkAtRiskRow 3600 7200 "ORF"; mkAtRiskRow 36000 36000 "ORF" ].

Definition uk_tif (lon lat : option Q) : option Z :=
  match lon with
  | Some x => if Qleb 0 x then Some 12 else None
  | None => None
  end.

Definition blank (id : Z) : RawLocation :=
  {| r_loc_id := id; r_accnumber := 1; r_portnumber := 1; r_locnumber := id;
     r_locuserdef1 := None; r_locperilscovered := None; r_buildingtype := None;
     r_occupancycode := None; r_constructioncode := None; r_numberofstoreys := None;
     r_floorsoccupied := None; r_firstfloorheight := None; r_firstfloorheightunit := None;
     r_yearbuilt := None; r_bipoi := None; r_latitude := None; r_longitude := None;
     r_postalcode := None |}.

Definition site (id : Z) (lat lon : Q) (pc : string) : RawLocation :=
  {| r_loc_id := id; r_accnumber := 1; r_portnumber := 1; r_locnumber := id;
     r_locuserdef1 := None; r_locperilscovered := Some "ORF"%string; r_buildingtype := None;
     r_occupancycode := None; r_constructioncode := None; r_numberofstoreys := None;
     r_floorsoccupied := None; r_firstfloorheight := None; r_firstfloorheightunit := None;
     r_yearbuilt := None; r_bipoi := None; r_latitude := Some lat; r_longitude := Some lon;
     r_postalcode := Some pc |}.

(** A house with no period of indemnity. *)
Definition detached_no_bi : RawLocation :=
  {| r_loc_id := 2; r_accnumber := 1; r_portnumber := 1; r_locnumber := 2;
     r_locuserdef1 := None; r_locperilscovered := None; r_buildingtype := Some 1;
     r_occupancycode := None; r_constructioncode := None; r_numberofstoreys := None;
     r_floorsoccupied := None; r_firstfloorheight := None; r_firstfloorheightunit := None;
     r_yearbuilt := None; r_bipoi := Some 0%Q; r_latitude := None; r_longitude := None;
     r_postalcode := None |}.


(** The locations frame the keys are made of, [[]] when the call raises. *)
Definition enriched (self : KeysLookup) (loc_df : list RawLocation) : list (Location Z) :=
  match enrich_locations self loc_df with
  | inr df => df
  | inl _ => []
  end.

Definition home : Location Z :=
  Eval vm_compute in hd (set_floorsoccupied 0 (normalise (blank 1))) (enriched self0 [blank 1]).

Definition home_orf : Location Z :=
  Eval vm_compute in
    hd (set_floorsoccupied 0 (normalise (blank 1))) (enriched self0 [site 5 1 2 "XX"]).

Definition bi_key : Key :=
  Eval vm_compute in nth 2 (candidate_keys self0 [home_orf]) (candidate "ORF" 0 home_orf).

(** The frames two calls on [self0] return, [[]] when the call raises. *)
Definition returned (loc_df : list RawLocation) : list ResultKey :=
  match snd (process_locations uk_tif self0 loc_df) with
  | inr out => out
  | inl _ => []
  end.

Definition out_at_risk : list ResultKey :=
  Eval vm_compute in returned [site 5 1 2 "XX"].

Definition out_zero : list ResultKey :=
  Eval vm_compute in returned [site 5 0 0 "ab1 2cd"].

Definition self_after : KeysLookup :=
  Eval vm_compute in fst (process_locations uk_tif self0 [site 5 1 2 "XX"]).

Definition self_after_zero : KeysLookup :=
  Eval vm_compute in fst (process_locations uk_tif self0 [site 5 0 0 "ab1 2cd"]).

End Example1.

(** ** The specification's tables *)

(** The status table of the specification, section 4.8, word for word: the
    status code and the message by (vulnerability valid, coordinates
    defined, at risk). *)
Definition status_table (vulnerability_valid coordinates_defined exposed : bool)
    : string * string :=
  match vulnerability_valid, coordinates_defined, exposed with
  | true, true, true => ("success", EmptyString)
  | true, true, false =>
      ("notatrisk",
       "area-peril and vulnerability valid, but location not exposed to this peril")
  | false, true, _ => ("fail_v", "area-peril valid, vulnerability invalid")
  | true, false, _ => ("fail_ap", "vulnerability valid, area-peril invalid")
  | false, false, _ => ("fail", "area-peril and vulnerability invalid")
  end%string.

(** The three inputs of the table, read off a key. *)
Definition vulnerability_valid (k : Key) : bool :=
  negb (bool_decide (vulnerability_id k = Some (-1))).

Definition coordinates_defined (k : Key) : bool :=
  bool_decide (is_Some (lat_id k) /\ is_Some (lon_id k)).

(** The peril groups of the specification, section 4.4. *)
Definition peril_group_expansion (covered : string) : string :=
  if String.eqb covered PERIL_GROUP_all then "ORF;OSF;WSS"
  else if String.eqb covered PERIL_GROUP_flood_wo_storm_surge then "ORF;OSF"
  else if String.eqb covered PERIL_GROUP_windstorm_w_storm_surge then "WSS"
  else covered.

(** The perils a resolved covered-peril text covers. *)
Definition covered_perils (covered : string) : list string :=
  List.filter (fun peril => str_contains peril covered) perils.


(** The building categories the classification engine assigns. *)
Definition category_set (c : option string) : Prop :=
  exists s, c = Some s /\
    In s ["detached"; "semidetached"; "terraced"; "flat"; "bungalow"; "general_res";
          "nonres"]%string.

(** ** Predicates of the proofs *)

(** What the suppression leaves in a business-interruption key. *)
Definition bi_suppressed (k : Key) : Prop :=
  coveragetype_id k = bi_id ->
  floorsoccupied (k_loc k) = -9999 /\ numberofstoreys (k_loc k) = 0
  /\ peril_type k = Some "ORF;OSF;WSS"%string.

(** The message of a key whose catchment was not found. *)
Definition no_catchment : string := "could not find catchment for lat/lon".

(** What the loop of [format_keys_df] may do to a row: it keeps the
    area_peril_id and the grid ids, and either keeps the status and the
    message or fails the key for want of a catchment. *)
Definition sampled (r r' : FKey) : Prop :=
  area_peril_id r' = area_peril_id r
  /\ lat_id (fk_key r') = lat_id (fk_key r)
  /\ lon_id (fk_key r') = lon_id (fk_key r)
  /\ ((status (fk_key r') = status (fk_key r) /\ message (fk_key r') = message (fk_key r))
      \/ (status (fk_key r') = Some OASIS_KEYS_FL /\ message (fk_key r') = Some no_catchment)).

(** Both coordinates of a location are numbers. *)
Definition located {F} (l : Location F) : Prop :=
  is_Some (latitude l) /\ is_Some (longitude l).

(** A key with both grid ids and a vulnerability id. *)
Definition resolved (k : Key) : Prop :=
  is_Some (lat_id k) /\ is_Some (lon_id k) /\ is_Some (vulnerability_id k).

(** A key with both grid ids and one of the three statuses the table gives
    such a key. *)
Definition classified (k : Key) : Prop :=
  is_Some (lat_id k) /\ is_Some (lon_id k)
  /\ (status k = Some STATUS_success \/ status k = Some STATUS_notatrisk
      \/ status k = Some STATUS_fail_v).

(** ** Closed forms of the classification engine *)



(** ** The key server *)

(** The two files of a catchment that [write_keys_file] lists. *)
Definition catchment_file (catchment_id : Z) : string :=
  "catchments/catchment_" +:+ str_of_Z catchment_id +:+ ".parquet".

Definition catchment_events_file (catchment_id : Z) : string :=
  "catchment_events/catchment_" +:+ str_of_Z catchment_id +:+ "_events.parquet".

Definition catchment_files (catchment_id : Z) : list string :=
  [catchment_file catchment_id; catchment_events_file catchment_id].

(** [GLOBAL_FLOODKeysServer.write_keys_file] up to the call of the method it
    overrides: the set of names it writes to model_data_files.csv, from the
    list [MODEL_FILES] of the module [constants], which is not among the
    sources, and the chunks of the keys frame.  The catchment ids are
    integers, so that [int] does not raise. *)
Definition model_files (MODEL_FILES : list string) (results : list (list ResultKey))
    : gset string :=
  fold_left
    (fun model_files result =>
       fold_left
         (fun model_files catchment_id =>
            if catchment_id <? 1 then model_files
            else {[catchment_events_file catchment_id]}
                 ∪ ({[catchment_file catchment_id]} ∪ model_files))
         (unique (map rk_catchment_id result)) model_files)
    results (list_to_set MODEL_FILES).

(** The peril type [__init__] leaves in a row of the vulnerability table,
    from the code of the file. *)
Definition recoded_peril_type (c : cell) : cell :=
  match c with
  | CInt 1 => CStr FLUVIAL_ID
  | CInt 2 => CStr PLUVIAL_ID
  | CInt 3 => CStr COASTAL_ID
  | CInt (-9999) => CStr ALL_PERILS
  | _ => c
  end.

(** A row of [loc_df] carries the loc_id of a location of the batch, and as
    covered perils the text [resolve] makes of that location's. *)
Definition comes_from (loc_df : list RawLocation) (resolve : string -> string) {F}
    (l : Location F) : Prop :=
  exists raw, In raw loc_df /\ loc_id l = r_loc_id raw
    /\ locperilscovered l = resolve (default_str "ORF;OSF;WSS" (r_locperilscovered raw)).

(** ** The keys of the worked example *)

Module Example2.

(** The keys of a call on [Example1.self0] with the location
    [Example1.site 5 1 2 "XX"], at the time the raster is sampled. *)
Definition keys : list Key :=
  Eval vm_compute in keys_at_sampling Example1.self0 [Example1.home_orf].

(** The frame [format_keys_df] makes of them, [[]] when it raises. *)
Definition formatted : list FKey :=
  Eval vm_compute in
    match format_keys_df Example1.uk_tif keys with
    | inr out => out
    | inl _ => []
    end.

(** A residential location without building type, and the row
    [get_mcm_code_residential] makes of it. *)
Definition plain : Location string := Eval vm_compute in normalise (Example1.blank 1).


End Example2.
(** * Properties *)

(** ** Sanity checks of the text helpers *)

Example py_int_examples :
  py_int "2" = inr 2 /\ py_int " -1 " = inr (-1) /\ py_int "1_0" = inr 10
  /\ py_int "1.5" = inl ValueError /\ py_int EmptyString = inl ValueError
  /\ py_int "1__0" = inl ValueError /\ py_int "7_" = inl ValueError.
Proof. repeat split; reflexivity. Qed.

Example str_split_examples :
  str_split ";" "0;2;1" = ["0"; "2"; "1"]%string
  /\ str_split ";" "3;" = ["3"; EmptyString]%string
  /\ str_split ";" EmptyString = [EmptyString].
Proof. repeat split; reflexivity. Qed.

Example str_contains_examples :
  str_contains "OSF" "ORF;OSF" = true /\ str_contains "WSS" "ORF;OSF" = false
  /\ str_upper (str_remove_spaces "ab1 2cd") = "AB12CD"%string.
Proof. repeat split; reflexivity. Qed.

Example get_floors_occupied_examples :
  get_floors_occupied "2;1;5" = inr 1 /\ get_floors_occupied "-1" = inr 0
  /\ get_floors_occupied "7" = inr 3 /\ get_floors_occupied "a" = inl ValueError.
Proof. repeat split; reflexivity. Qed.

(** ** Status classifier *)

Lemma loc_assign_map {A} (mask : A -> bool) (upd : A -> A) (df : list A) :
  loc_assign mask upd df = map (fun r => if mask r then upd r else r) df.
Proof. reflexivity. Qed.

(** The five assignments on one row. *)
Lemma sort_keys_status_row (k : Key) :
  sort_keys_status [k] =
    [set_status_message
       (fst (status_table (vulnerability_valid k) (coordinates_defined k) (at_risk k)))
       (snd (status_table (vulnerability_valid k) (coordinates_defined k) (at_risk k))) k].
Proof.
  destruct k as [l c p pt vid la lo ar st ms].
  unfold sort_keys_status, loc_assign, vulnerability_valid, coordinates_defined.
  cbn [map vulnerability_id lat_id lon_id at_risk].
  destruct vid as [v|].
  - destruct (Z.eqb_spec v (-1)) as [->|Hv].
    + destruct la, lo, ar; reflexivity.
    + rewrite bool_decide_eq_false_2 by congruence.
      apply Z.eqb_neq in Hv.
      destruct la, lo, ar; repeat (cbn -[Z.eqb]; rewrite ?Hv); reflexivity.
  - destruct la, lo, ar; reflexivity.
Qed.

Lemma sort_keys_status_app (df1 df2 : list Key) :
  sort_keys_status (df1 ++ df2) = sort_keys_status df1 ++ sort_keys_status df2.
Proof. unfold sort_keys_status, loc_assign. now rewrite !map_app. Qed.

Lemma sort_keys_status_rows (keys_df : list Key) :
  sort_keys_status keys_df =
    map (fun k =>
           let entry := status_table (vulnerability_valid k) (coordinates_defined k)
                                     (at_risk k) in
           set_status_message (fst entry) (snd entry) k) keys_df.
Proof.
  induction keys_df as [|k df IH]; [reflexivity|].
  change (k :: df) with ([k] ++ df).
  rewrite sort_keys_status_app, sort_keys_status_row, IH. reflexivity.
Qed.


(** ** Peril resolver and key expander *)

Lemma set_locperilscovered_id {F} (l : Location F) :
  set_locperilscovered (locperilscovered l) l = l.
Proof. now destruct l. Qed.

(** [get_peril] row by row: the covered-peril text is replaced by the
    expansion of its group, nothing else changes. *)
Lemma get_peril_rows {F} (loc_df : list (Location F)) :
  get_peril loc_df =
    map (fun l => set_locperilscovered (peril_group_expansion (locperilscovered l)) l) loc_df.
Proof.
  unfold get_peril, loc_assign. rewrite !map_map. apply map_ext. intros l.
  unfold peril_group_expansion.
  destruct (String.eqb_spec (locperilscovered l) PERIL_GROUP_all) as [E1|N1].
  { destruct l; cbn in E1; subst; reflexivity. }
  destruct (String.eqb_spec (locperilscovered l) PERIL_GROUP_flood_wo_storm_surge) as [E2|N2].
  { destruct l; cbn in E2; subst; reflexivity. }
  destruct (String.eqb_spec (locperilscovered l) PERIL_GROUP_windstorm_w_storm_surge) as [E3|N3].
  { destruct l; cbn in E3; subst; reflexivity. }
  now rewrite set_locperilscovered_id.
Qed.

(** The double loop of [expand_keys], peril by peril and coverage by
    coverage. *)
Lemma expand_keys_flat (loc_df : list (Location Z)) :
  expand_keys loc_df =
    flat_map (fun peril =>
      flat_map (fun coverage =>
        map (candidate peril coverage)
            (List.filter (fun l => str_contains peril (locperilscovered l)) loc_df))
        coverages) perils.
Proof.
  unfold expand_keys, perils, coverages. cbn [fold_left flat_map].
  now rewrite !app_nil_r, <- !app_assoc.
Qed.





(** ** Frames *)

Lemma in_loc_assign {A} (mask : A -> bool) (upd : A -> A) (df : list A) (x : A) :
  In x (loc_assign mask upd df) -> exists r, In r df /\ x = (if mask r then upd r else r).
Proof.
  unfold loc_assign. intros H. apply in_map_iff in H as (r & <- & Hr). now exists r.
Qed.

Lemma in_merge_left {A B} (on : A -> B -> bool) (join : A -> option B -> A)
    (left : list A) (right : list B) (x : A) :
  In x (merge_left on join left right) -> exists a b, In a left /\ x = join a b.
Proof.
  unfold merge_left. intros H. apply in_flat_map in H as (a & Ha & H).
  destruct (List.filter (on a) right) as [|b0 ms] eqn:E.
  - destruct H as [<-|[]]. now exists a, None.
  - apply in_map_iff in H as (b & <- & _). now exists a, (Some b).
Qed.

(** A property of rows that every step keeps holds of the whole frame. *)
Lemma Forall_loc_assign {A} (P : A -> Prop) (mask : A -> bool) (upd : A -> A) (df : list A) :
  (forall r, P r -> P (upd r)) -> List.Forall P df -> List.Forall P (loc_assign mask upd df).
Proof.
  intros Hupd H. apply List.Forall_forall. intros x Hx.
  apply in_loc_assign in Hx as (r & Hr & ->).
  rewrite List.Forall_forall in H. destruct (mask r); auto.
Qed.

Lemma Forall_merge_left {A B} (P : A -> Prop) (on : A -> B -> bool)
    (join : A -> option B -> A) (left : list A) (right : list B) :
  (forall a b, P a -> P (join a b)) -> List.Forall P left ->
  List.Forall P (merge_left on join left right).
Proof.
  intros Hjoin H. apply List.Forall_forall. intros x Hx.
  apply in_merge_left in Hx as (a & b & Ha & ->).
  rewrite List.Forall_forall in H. auto.
Qed.

Lemma Forall_assign_bins {A B} (P : A -> Prop) (bins : list ((A -> bool) * B))
    (set : B -> A -> A) (df : list A) :
  (forall b r, P r -> P (set b r)) -> List.Forall P df ->
  List.Forall P (assign_bins bins set df).
Proof.
  intros Hset. unfold assign_bins. revert df.
  induction bins as [|bin bins IH]; intros df H; cbn [fold_left]; [exact H|].
  apply IH. apply Forall_loc_assign; auto.
Qed.

(** ** Field suppression *)

Lemma suppress_fields_bi (keys_df : list Key) :
  List.Forall bi_suppressed (suppress_fields keys_df).
Proof.
  apply List.Forall_forall. intros k Hk. unfold suppress_fields, loc_assign in Hk.
  rewrite !map_map in Hk. apply in_map_iff in Hk as (k0 & <- & _).
  destruct k0 as [l c p pt vid la lo ar st ms]. unfold bi_suppressed.
  cbn -[Z.eqb str_eqb]. 
  destruct (Z.eqb_spec c bi_id) as [->|Hc].
  - intros _. cbn -[str_eqb].
    destruct (str_eqb (building_cat l) "nonres"); cbn; auto.
  - repeat match goal with
           | |- context [if ?b then _ else _] => destruct b; cbn -[Z.eqb str_eqb]
           end; intros; congruence.
Qed.

(** C6: every key of coverage bi that reaches the vulnerability merge and
    leaves it has floorsoccupied -9999 and numberofstoreys 0, whatever its
    building category, and its peril_type is the combined text
    fluvial;pluvial;coastal. *)
Theorem bi_keys_suppressed (self : KeysLookup) (loc_df : list (Location Z)) (k : Key) :
  In k (suppress_fields (expand_keys loc_df)) \/ In k (candidate_keys self loc_df) ->
  coveragetype_id k = bi_id ->
  floorsoccupied (k_loc k) = -9999
  /\ numberofstoreys (k_loc k) = 0
  /\ peril_type k = Some (FLUVIAL_ID +:+ ";" +:+ PLUVIAL_ID +:+ ";" +:+ COASTAL_ID).
Proof.
  intros Hk. change (bi_suppressed k). revert k Hk.
  assert (H1 : List.Forall bi_suppressed (suppress_fields (expand_keys loc_df)))
    by apply suppress_fields_bi.
  assert (H2 : List.Forall bi_suppressed (candidate_keys self loc_df)).
  { unfold candidate_keys, fillna_vulnerability_id, get_latlon_ids, assign_vulnerability_id.
    apply List.Forall_map, List.Forall_map.
    eapply List.Forall_impl; [|apply Forall_merge_left; [|exact H1]].
    - intros k Hk. exact Hk.
    - intros a b Ha. exact Ha. }
  rewrite List.Forall_forall in H1, H2. intros k [Hk|Hk]; [exact (H1 k Hk)|exact (H2 k Hk)].
Qed.


(** ** Binning *)


Lemma Qle_bool_false (x y : Q) : (y < x)%Q -> Qle_bool x y = false.
Proof.
  intros H. destruct (Qle_bool x y) eqn:E; [|reflexivity].
  apply Qle_bool_iff in E. lra.
Qed.

Lemma Qle_bool_true (x y : Q) : (x <= y)%Q -> Qle_bool x y = true.
Proof. apply Qle_bool_iff. Qed.

(** Settle every comparison of the goal from the bounds in the context. *)
Ltac settle_comparisons :=
  unfold Qgeb, Qgtb, Qltb, Qleb;
  repeat match goal with
         | |- context [Qle_bool ?a ?b] =>
             first [ rewrite (Qle_bool_true a b) by lra
                   | rewrite (Qle_bool_false a b) by lra ]
         end.

Ltac locate_between h ts :=
  lazymatch ts with
  | cons ?t ?ts' => destruct (Qlt_le_dec h t); [|locate_between h ts']
  | _ => idtac
  end.

(** When no bin holds of a row, the assignments leave it alone; when one
    does, and writing a bucket does not change what the masks see, the row
    gets that bucket. *)
Lemma assign_bins_none {A B} (bins : list ((A -> bool) * B)) (set : B -> A -> A) (r : A) :
  bins_of bins r = [] -> assign_bins bins set [r] = [r].
Proof.
  unfold assign_bins, bins_of. induction bins as [|[m b] bins IH]; [reflexivity|].
  cbn [List.filter fold_left loc_assign map fst snd].
  destruct (m r); [discriminate|]. exact IH.
Qed.

Lemma assign_bins_one {A B} (bins : list ((A -> bool) * B)) (set : B -> A -> A) (r : A)
    (b : B) :
  (forall bin c, In bin bins -> fst bin (set c r) = fst bin r) ->
  bins_of bins r = [b] -> assign_bins bins set [r] = [set b r].
Proof.
  unfold assign_bins, bins_of. induction bins as [|[m c] bins IH]; [discriminate|].
  intros Hinv. cbn [List.filter fold_left loc_assign map fst snd].
  destruct (m r) eqn:Em.
  - cbn [map snd]. intros [= -> Hrest]. apply assign_bins_none.
    unfold bins_of. rewrite <- Hrest. f_equal. apply filter_ext_in.
    intros bin Hbin. apply Hinv. now right.
  - intros Hb. apply IH; [|exact Hb]. intros bin c' Hbin. apply Hinv. now right.
Qed.

(** The bins of a row, bin by bin. *)
Lemma bins_of_flat {A B} (bins : list ((A -> bool) * B)) (r : A) :
  bins_of bins r = flat_map (fun bin : (A -> bool) * B => if fst bin r then [snd bin] else []) bins.
Proof.
  unfold bins_of. induction bins as [|[m b] bins IH]; [reflexivity|].
  cbn [List.filter flat_map fst snd]. destruct (m r); cbn [map app snd]; now rewrite IH.
Qed.

Lemma ffh_bins_partition {F} (l : Location F) :
  (0 <= firstfloorheight l)%Q -> exists b, bins_of ffh_bins l = [b].
Proof.
  intros H0. rewrite bins_of_flat. unfold ffh_bins. cbn [flat_map fst snd].
  locate_between (firstfloorheight l)
    constr:((0.05 :: 0.15 :: 0.25 :: 0.35 :: 0.65 :: 1.35 :: 2.65 :: nil)%Q);
    settle_comparisons; cbn [andb negb app]; eauto.
Qed.

Lemma category_flags (c : option string) :
  category_set c ->
  (residential_cat c = true /\ str_eqb c "nonres" = false)
  \/ (residential_cat c = false /\ str_eqb c "nonres" = true).
Proof.
  intros (s & -> & Hin). cbn [In] in Hin.
  destruct Hin as [<-|[<-|[<-|[<-|[<-|[<-|[<-|[]]]]]]]];
    first [left; split; vm_compute; reflexivity | right; split; vm_compute; reflexivity].
Qed.

Lemma bi_poi_bins_partition {F} (l : Location F) :
  (0 < bipoi l)%Q -> category_set (building_cat l) -> exists b, bins_of bi_poi_bins l = [b].
Proof.
  intros H0 Hcat. rewrite bins_of_flat. unfold bi_poi_bins. cbn [flat_map fst snd].
  destruct (category_flags _ Hcat) as [[Hr Hn]|[Hr Hn]]; rewrite Hr, Hn.
  - destruct (Qlt_le_dec 183 (bipoi l)); settle_comparisons; rewrite ?andb_false_r; cbn [andb negb app]; eauto.
  - locate_between (bipoi l)
      constr:((137 :: 228 :: 319 :: 411 :: 502 :: 593 :: 684 :: 776 :: 867 :: 958 :: 1049
               :: nil)%Q);
      settle_comparisons; rewrite ?andb_false_r; cbn [andb negb app]; eauto.
Qed.

Lemma first_floor_height_metres_row {F} (l : Location F) :
  (0 <= firstfloorheight l)%Q ->
  exists l1, first_floor_height_metres [l] = [l1] /\ (0 <= firstfloorheight l1)%Q.
Proof.
  intros H0. unfold first_floor_height_metres, loc_assign. cbn [map].
  assert (E : Qeqb (firstfloorheight l) (-999) = false).
  { unfold Qeqb. destruct (Qeq_bool (firstfloorheight l) (-999)) eqn:E; [|reflexivity].
    apply Qeq_bool_iff in E. lra. }
  rewrite E. cbn [negb andb].
  assert (E' : forall m : Location F, Qeqb (firstfloorheight l * 0.3048) (-999) = false).
  { intros _. unfold Qeqb.
    destruct (Qeq_bool (firstfloorheight l * 0.3048) (-999)) eqn:E'; [|reflexivity].
    apply Qeq_bool_iff in E'. lra. }
  destruct (firstfloorheightunit l =? 1);
    repeat (progress (cbn [andb negb firstfloorheight set_firstfloorheight];
                      rewrite ?E, ?(E' l), ?andb_false_r));
    (eexists; split; [reflexivity|]); cbn [firstfloorheight set_firstfloorheight]; lra.
Qed.

(** C7, as the code has it: a strictly positive bipoi of a location whose
    building category is set falls in exactly one bin of its ladder, and a
    first floor height that is not negative falls, once in metres, in
    exactly one bin; the location gets the bucket of that bin.  The bipoi
    bins cover the positive values, the height bins the values from 0 on. *)
Theorem bins_assign_exactly_one (l : Location Z) :
  ((0 < bipoi l)%Q -> category_set (building_cat l) ->
   exists b, bins_of bi_poi_bins l = [b] /\ get_bi_poi [l] = [set_bipoi_cat (Some b) l])
  /\ ((0 <= firstfloorheight l)%Q ->
      exists l1 b, first_floor_height_metres [l] = [l1]
                   /\ (0 <= firstfloorheight l1)%Q
                   /\ bins_of ffh_bins l1 = [b]
                   /\ get_first_floor_height [l] = [set_ffh_cat (Some b) l1]).
Proof.
  split.
  - intros H0 Hcat. destruct (bi_poi_bins_partition l H0 Hcat) as (b & Hb).
    exists b. split; [exact Hb|]. unfold get_bi_poi.
    apply (assign_bins_one bi_poi_bins (fun b => set_bipoi_cat (Some b))); [|exact Hb].
    intros bin c Hbin. unfold bi_poi_bins in Hbin. cbn [In] in Hbin.
    repeat (destruct Hbin as [<-|Hbin]; [reflexivity|]). destruct Hbin.
  - intros H0. destruct (first_floor_height_metres_row l H0) as (l1 & Hl1 & H1).
    destruct (ffh_bins_partition l1 H1) as (b & Hb).
    exists l1, b. repeat split; try assumption.
    unfold get_first_floor_height. rewrite Hl1.
    apply (assign_bins_one ffh_bins (fun b => set_ffh_cat (Some b))); [|exact Hb].
    intros bin c Hbin. unfold ffh_bins in Hbin. cbn [In] in Hbin.
    repeat (destruct Hbin as [<-|Hbin]; [reflexivity|]). destruct Hbin.
Qed.

(** ** Vulnerability resolver *)





(** ** Worked instances *)

Lemma bi_keys_suppressed_witness :
  (In Example1.bi_key (suppress_fields (expand_keys [Example1.home_orf]))
   \/ In Example1.bi_key (candidate_keys Example1.self0 [Example1.home_orf]))
  /\ coveragetype_id Example1.bi_key = bi_id
  /\ floorsoccupied (k_loc Example1.bi_key) = -9999
  /\ numberofstoreys (k_loc Example1.bi_key) = 0
  /\ peril_type Example1.bi_key
     = Some (FLUVIAL_ID +:+ ";" +:+ PLUVIAL_ID +:+ ";" +:+ COASTAL_ID).
Proof.
  assert (H : In Example1.bi_key (suppress_fields (expand_keys [Example1.home_orf]))
              \/ In Example1.bi_key (candidate_keys Example1.self0 [Example1.home_orf])).
  { right. vm_compute. right. right. left. reflexivity. }
  assert (Hc : coveragetype_id Example1.bi_key = bi_id) by reflexivity.
  split; [exact H|]. split; [exact Hc|].
  exact (bi_keys_suppressed Example1.self0 [Example1.home_orf] Example1.bi_key H Hc).
Defined.

Lemma bins_assign_exactly_one_witness :
  (0 < bipoi Example1.home)%Q
  /\ category_set (building_cat Example1.home)
  /\ (0 <= firstfloorheight Example1.home)%Q
  /\ (exists b, bins_of bi_poi_bins Example1.home = [b]
                /\ get_bi_poi [Example1.home] = [set_bipoi_cat (Some b) Example1.home])
  /\ (exists l1 b, first_floor_height_metres [Example1.home] = [l1]
                   /\ (0 <= firstfloorheight l1)%Q
                   /\ bins_of ffh_bins l1 = [b]
                   /\ get_first_floor_height [Example1.home] = [set_ffh_cat (Some b) l1]).
Proof.
  assert (H1 : (0 < bipoi Example1.home)%Q) by reflexivity.
  assert (H2 : category_set (building_cat Example1.home)).
  { exists "general_res"%string. split; [reflexivity|]. cbn. tauto. }
  assert (H3 : (0 <= firstfloorheight Example1.home)%Q) by (cbn; discriminate).
  split; [exact H1|]. split; [exact H2|]. split; [exact H3|]. split.
  - exact (proj1 (bins_assign_exactly_one Example1.home) H1 H2).
  - exact (proj2 (bins_assign_exactly_one Example1.home) H3).
Defined.

(** The claim C7 fails as stated at bipoi 0: a detached house with a period
    of indemnity of 0 days goes through the classification engine with its
    category set and its bipoi unchanged, no bin of [get_bi_poi] holds of
    it, and its bipoi_cat stays missing. *)
Lemma bipoi_zero_has_no_bucket :
  exists l,
    enrich_locations Example1.self0 [Example1.detached_no_bi] = inr [l]
    /\ (0 <= bipoi l)%Q
    /\ category_set (building_cat l)
    /\ bins_of bi_poi_bins l = []
    /\ bipoi_cat l = None
    /\ ~ (exists b, bins_of bi_poi_bins l = [b]).
Proof.
  eexists. split; [vm_compute; reflexivity|].
  split; [cbn; discriminate|].
  split; [exists "detached"%string; split; [reflexivity|cbn; tauto]|].
  split; [reflexivity|]. split; [reflexivity|].
  intros (b & Hb). vm_compute in Hb. discriminate.
Qed.

(** ** Geocoder *)

(** The reduction [Series.all()] gives a numpy scalar, which is not the
    object [False]: the test [... is False] of [get_latlon] never holds. *)
Lemma Series_all_is_not_False (s : list bool) : py_is (Series_all s) (PyBool false) = false.
Proof. reflexivity. Qed.

(** [get_latlon] is the merge with the centroid table and nothing more: the
    mask of the overwrite is empty. *)
Lemma get_latlon_merge_only {F} (self : KeysLookup) (loc_df : list (Location F)) :
  get_latlon self loc_df =
    merge_left (fun l p => String.eqb (postalcode l) (p_postalcode p))
               (fun l p => set_pc_lon (p ≫= p_pc_lon) (set_pc_lat (p ≫= p_pc_lat) l))
               (map (fun l => set_postalcode (str_upper (str_remove_spaces (postalcode l))) l)
                    loc_df)
               (postcode_df self).
Proof.
  unfold get_latlon. rewrite !Series_all_is_not_False.
  set (df := merge_left _ _ _ _). clearbody df.
  assert (H : forall (n : nat) (d : list (Location F)) (f : nat -> Location F -> Location F),
             (forall i l, f i l = l) -> imap f d = d).
  { intros n d. induction d as [|x d IH]; intros f Hf; cbn; [reflexivity|].
    rewrite Hf. f_equal. apply IH. intros i l. apply Hf. }
  apply (H 0%nat). intros i l. now rewrite !andb_false_r.
Qed.

(** Had the mask held of a row, the assignment would have stored NaN: the
    frame [temp_ll] has the columns pc_lat and pc_lon, and none is left once
    it is filtered on the names latitude and longitude. *)
Lemma filtered_temp_ll_is_empty (i : nat) (lat lon : option Q) (col : string) :
  frame_aligned_cell
    (frame_filter ["latitude"; "longitude"]%string
                  [(i, [("pc_lat"%string, lat); ("pc_lon"%string, lon)])]) i col = None.
Proof.
  unfold frame_filter, frame_aligned_cell. cbn [map fst snd List.find].
  rewrite Nat.eqb_refl. reflexivity.
Qed.

(** C3, on the code: the location of [Example1.site 5 0 0 "ab1 2cd"] has the
    coordinates (0, 0) and a postal code that, without its space and in
    upper case, is the entry AB12CD of the centroid table, with the centroid
    (51.5, -0.1).  [get_latlon] finds the centroid and leaves the
    coordinates at (0, 0). *)
Theorem get_latlon_keeps_zero_coordinates :
  forall l, Example1.enriched Example1.self0 [Example1.site 5 0 0 "ab1 2cd"] = [l] ->
    pc_lat l = Some 51.5%Q /\ pc_lon l = Some (-0.1)%Q
    /\ latitude l = Some 0%Q /\ longitude l = Some 0%Q.
Proof.
  intros l H. vm_compute in H. injection H as <-. repeat split.
Qed.

Lemma get_latlon_keeps_zero_coordinates_witness :
  exists l, Example1.enriched Example1.self0 [Example1.site 5 0 0 "ab1 2cd"] = [l]
    /\ pc_lat l = Some 51.5%Q /\ pc_lon l = Some (-0.1)%Q
    /\ latitude l = Some 0%Q /\ longitude l = Some 0%Q.
Proof.
  eexists. split; [vm_compute; reflexivity|].
  apply get_latlon_keeps_zero_coordinates. vm_compute. reflexivity.
Defined.

(** ** The lookup object across calls *)

Section Calls.

Variable uk_tif : option Q -> option Q -> option Z.

(** The five tables other than the at-risk grid are as they were. *)
Lemma process_locations_other_tables (self : KeysLookup) (loc_df : list RawLocation) :
  let self' := fst (process_locations uk_tif self loc_df) in
  vulnerability_df self' = vulnerability_df self
  /\ mcm_res_df self' = mcm_res_df self
  /\ mcm_nonres_df self' = mcm_nonres_df self
  /\ postcode_df self' = postcode_df self
  /\ yearbuilt_df self' = yearbuilt_df self.
Proof.
  unfold process_locations. destruct (enrich_locations self loc_df); cbn; auto.
Qed.

Lemma filter_idempotent {A} (p : A -> bool) (l : list A) :
  List.filter p (List.filter p l) = List.filter p l.
Proof.
  induction l as [|x l IH]; cbn; [reflexivity|].
  destruct (p x) eqn:E; cbn; rewrite ?E, IH; reflexivity.
Qed.

Lemma filter_comm {A} (p q : A -> bool) (l : list A) :
  List.filter p (List.filter q l) = List.filter q (List.filter p l).
Proof.
  induction l as [|x l IH]; cbn; [reflexivity|].
  destruct (p x) eqn:Ep, (q x) eqn:Eq; cbn; rewrite ?Ep, ?Eq, IH; reflexivity.
Qed.

(** Narrowing a narrowed grid by the same keys changes nothing. *)
Lemma narrow_at_risk_df_idempotent (keys_df : list Key) (t : list AtRiskRow) :
  narrow_at_risk_df keys_df (narrow_at_risk_df keys_df t) = narrow_at_risk_df keys_df t.
Proof.
  unfold narrow_at_risk_df.
  set (p := fun a => isin (Some (ar_lat_id a)) (unique (map lat_id keys_df))).
  set (q := fun a => isin (Some (ar_lon_id a)) (unique (map lon_id keys_df))).
  rewrite (filter_comm p q (List.filter p t)), filter_idempotent, filter_idempotent.
  reflexivity.
Qed.

(** The part of the call before the at-risk grid is read does not depend on
    the grid. *)
Lemma enrich_locations_at_risk_df (t : list AtRiskRow) (self : KeysLookup)
    (loc_df : list RawLocation) :
  enrich_locations (set_at_risk_df t self) loc_df = enrich_locations self loc_df.
Proof. reflexivity. Qed.

Lemma candidate_keys_at_risk_df (t : list AtRiskRow) (self : KeysLookup)
    (loc_df : list (Location Z)) :
  candidate_keys (set_at_risk_df t self) loc_df = candidate_keys self loc_df.
Proof. reflexivity. Qed.

(** C8: a second call of [process_locations] on the lookup object the first
    call leaves behind, with the same locations, returns what the first call
    returned, rows in the same order, and leaves the object as it found
    it. *)
Theorem process_locations_twice (self : KeysLookup) (loc_df : list RawLocation) :
  let first := process_locations uk_tif self loc_df in
  process_locations uk_tif (fst first) loc_df = first.
Proof.
  cbn zeta. unfold process_locations at 2.
  destruct (enrich_locations self loc_df) as [e|df] eqn:E.
  - cbn [fst]. unfold process_locations. rewrite E. reflexivity.
  - cbn [fst]. unfold process_locations.
    rewrite enrich_locations_at_risk_df, E, candidate_keys_at_risk_df.
    cbn [at_risk_df set_at_risk_df].
    rewrite narrow_at_risk_df_idempotent. reflexivity.
Qed.

End Calls.

(** C4, on the code: the grid of [Example1.self0] has two cells; after a
    call with one location in the first cell, the grid of the lookup object
    holds that cell only. *)
Theorem process_locations_narrows_at_risk_df :
  at_risk_df Example1.self0
    = [mkAtRiskRow 3600 7200 "ORF"; mkAtRiskRow 36000 36000 "ORF"]
  /\ at_risk_df (fst (process_locations Example1.uk_tif Example1.self0
                                        [Example1.site 5 1 2 "XX"]))
     = [mkAtRiskRow 3600 7200 "ORF"]
  /\ at_risk_df (fst (process_locations Example1.uk_tif Example1.self0
                                        [Example1.site 5 1 2 "XX"]))
     <> at_risk_df Example1.self0.
Proof.
  split; [reflexivity|]. split; [vm_compute; reflexivity|].
  vm_compute. discriminate.
Qed.

(** What the narrowing costs a later call: a location in the second cell of
    the grid is at risk for a fresh lookup object, and not at risk for the
    object the call above leaves behind. *)
Lemma later_call_sees_narrowed_grid :
  let self' := fst (process_locations Example1.uk_tif Example1.self0
                                      [Example1.site 5 1 2 "XX"]) in
  (exists out, snd (process_locations Example1.uk_tif Example1.self0
                                      [Example1.site 6 10 10 "XX"]) = inr out
               /\ map rk_status out
                  = [Some STATUS_success; Some STATUS_fail_v; Some STATUS_success])
  /\ (exists out, snd (process_locations Example1.uk_tif self'
                                         [Example1.site 6 10 10 "XX"]) = inr out
                  /\ map rk_status out
                     = [Some STATUS_notatrisk; Some STATUS_fail_v; Some STATUS_notatrisk]).
Proof.
  split; eexists; (split; [vm_compute; reflexivity|]); reflexivity.
Qed.

(** ** Catchment sampling *)

Lemma alter_alter {A} (f g : A -> A) (i : nat) (l : list A) :
  alter f i (alter g i l) = alter (fun x => f (g x)) i l.
Proof.
  revert i. induction l as [|x l IH]; intros [|i]; cbn; [reflexivity..|].
  f_equal. apply IH.
Qed.

Section Sampling.

Variable uk_tif : option Q -> option Q -> option Z.

Lemma format_keys_df_fold (keys_df : list Key) :
  format_keys_df uk_tif keys_df =
    let df0 := map (fun k => {| fk_key := k; catchment_id := -1; area_peril_id := -1;
                                model_data := EmptyString |}) keys_df in
    fold_left (format_step uk_tif)
              (List.filter (fun ir => str_eqb (status (fk_key (snd ir))) STATUS_success)
                           (imap pair df0))
              (inr df0).
Proof. reflexivity. Qed.

Lemma fold_format_step_raised (l : list (nat * FKey)) (e : exn) :
  fold_left (format_step uk_tif) l (inl e) = inl e.
Proof. induction l as [|ir l IH]; [reflexivity|exact IH]. Qed.

Lemma catchment_not_found_alter (i : nat) (df : list FKey) :
  catchment_not_found i df =
    alter (fun r => set_fk_key (set_status_message OASIS_KEYS_FL no_catchment (fk_key r)) r) i df.
Proof. unfold catchment_not_found. rewrite alter_alter. reflexivity. Qed.

Lemma format_key_sampled (df0 df df' : list FKey) (i : nat) (row : FKey) :
  Forall2 sampled df0 df -> format_key uk_tif df i row = inr df' -> Forall2 sampled df0 df'.
Proof.
  intros H. unfold format_key.
  assert (Hfail : Forall2 sampled df0 (catchment_not_found i df)).
  { rewrite catchment_not_found_alter. apply Forall2_alter_r; [exact H|].
    intros x y _ _ (Ha & Hla & Hlo & _). repeat split; try assumption.
    right. split; reflexivity. }
  destruct (uk_tif _ _) as [c|]; [|intros [= <-]; exact Hfail].
  destruct (c <? 0); [intros [= <-]; exact Hfail|].
  destruct (model_data_json row c) as [e|json]; [discriminate|].
  intros [= <-]. apply Forall2_alter_r; [apply Forall2_alter_r; [exact H|]|].
  - intros x y _ _ Hs. exact Hs.
  - intros x y _ _ Hs. exact Hs.
Qed.

Lemma format_key_elsewhere (df df' : list FKey) (i j : nat) (row : FKey) :
  i <> j -> format_key uk_tif df i row = inr df' -> df' !! j = df !! j.
Proof.
  intros Hij. unfold format_key, catchment_not_found.
  destruct (uk_tif _ _) as [c|];
    [destruct (c <? 0); [|destruct (model_data_json row c); [discriminate|]]|];
    intros [= <-]; now rewrite !list_lookup_alter_ne.
Qed.

Lemma fold_format_step (df0 : list FKey) (l : list (nat * FKey)) (df out : list FKey) :
  Forall2 sampled df0 df ->
  fold_left (format_step uk_tif) l (inr df) = inr out ->
  Forall2 sampled df0 out
  /\ forall j, (forall ir, In ir l -> fst ir <> j) -> out !! j = df !! j.
Proof.
  revert df. induction l as [|[i row] l IH]; intros df H.
  - intros [= <-]. auto.
  - cbn [fold_left]. unfold format_step at 2. cbn [bind fst snd].
    destruct (format_key uk_tif df i row) as [e|df1] eqn:E.
    + rewrite fold_format_step_raised. discriminate.
    + intros Hfold. destruct (IH df1 (format_key_sampled _ _ _ _ _ H E) Hfold) as (H1 & H2).
      split; [exact H1|]. intros j Hj. rewrite H2.
      * apply (format_key_elsewhere _ _ i j row); [|exact E].
        apply (Hj (i, row)). now left.
      * intros ir Hir. apply Hj. now right.
Qed.

Lemma sampled_refl (df : list FKey) : Forall2 sampled df df.
Proof.
  induction df as [|r df IH]; constructor; [|exact IH].
  repeat split. left. split; reflexivity.
Qed.

(** What [format_keys_df] returns, row by row. *)
Lemma format_keys_df_rows (keys_df : list Key) (out : list FKey) :
  format_keys_df uk_tif keys_df = inr out ->
  let df0 := map (fun k => {| fk_key := k; catchment_id := -1; area_peril_id := -1;
                              model_data := EmptyString |}) keys_df in
  Forall2 sampled df0 out
  /\ forall i k, keys_df !! i = Some k -> status k <> Some STATUS_success ->
                 out !! i = df0 !! i.
Proof.
  rewrite format_keys_df_fold. cbn zeta. intros H.
  apply (fold_format_step _ _ _ _ (sampled_refl _)) in H as (H1 & H2).
  split; [exact H1|]. intros i k Hk Hs. apply H2. intros [i' r] Hir <-.
  apply filter_In in Hir as (Hir & Hsucc). cbn [fst snd] in *.
  apply list_elem_of_In, elem_of_lookup_imap_1 in Hir as (i'' & y & [= -> ->] & Hy).
  rewrite list_lookup_fmap, Hk in Hy. injection Hy as <-. cbn in Hsucc.
  apply Hs. destruct (status k) as [s|]; [|discriminate].
  cbn in Hsucc. apply String.eqb_eq in Hsucc. now subst.
Qed.

Lemma process_locations_unfold (self : KeysLookup) (loc_df : list RawLocation) :
  process_locations uk_tif self loc_df =
    match enrich_locations self loc_df with
    | inl e => (self, inl e)
    | inr df =>
        (set_at_risk_df (narrow_at_risk_df (candidate_keys self df) (at_risk_df self)) self,
         let* keys_df := format_keys_df uk_tif (keys_at_sampling self df) in
         inr (map result_key keys_df))
    end.
Proof. reflexivity. Qed.

(** A call that returns a frame went through [format_keys_df]. *)
Lemma process_locations_returns (self self' : KeysLookup) (loc_df : list RawLocation)
    (out : list ResultKey) :
  process_locations uk_tif self loc_df = (self', inr out) ->
  exists df keys,
    enrich_locations self loc_df = inr df
    /\ format_keys_df uk_tif (keys_at_sampling self df) = inr keys
    /\ out = map result_key keys.
Proof.
  rewrite process_locations_unfold.
  destruct (enrich_locations self loc_df) as [e|df]; [discriminate|].
  destruct (format_keys_df uk_tif (keys_at_sampling self df)) as [e|keys] eqn:E;
    cbn [bind]; [discriminate|].
  intros [= _ <-]. now exists df, keys.
Qed.

(** C9: in every row of the frame a call returns, area_peril_id is -1; and
    a key whose status is not success when the raster is sampled is returned
    at the same index with the catchment_id -1, the empty model_data, and
    its status and message as they were. *)
Theorem unsampled_keys_keep_defaults (self self' : KeysLookup) (loc_df : list RawLocation)
    (out : list ResultKey) :
  process_locations uk_tif self loc_df = (self', inr out) ->
  List.Forall (fun r => rk_area_peril_id r = -1) out
  /\ exists df, enrich_locations self loc_df = inr df
       /\ length out = length (keys_at_sampling self df)
       /\ forall i k, keys_at_sampling self df !! i = Some k ->
            status k <> Some STATUS_success ->
            exists r, out !! i = Some r
              /\ rk_catchment_id r = -1 /\ rk_model_data r = EmptyString
              /\ rk_status r = status k /\ rk_message r = message k.
Proof.
  intros H. apply process_locations_returns in H as (df & keys & Hdf & Hkeys & ->).
  destruct (format_keys_df_rows _ _ Hkeys) as (H1 & H2). split; [|exists df; repeat split].
  - apply List.Forall_map. apply List.Forall_forall. intros r Hr.
    apply list_elem_of_In, list_elem_of_lookup in Hr as (i & Hi).
    destruct (Forall2_lookup_r _ _ _ _ _ H1 Hi) as (r0 & Hr0 & (Ha & _)).
    rewrite list_lookup_fmap in Hr0. destruct (keys_at_sampling self df !! i); [|discriminate].
    injection Hr0 as <-. exact Ha.
  - exact Hdf.
  - rewrite length_map, <- (Forall2_length _ _ _ H1), length_map. reflexivity.
  - intros i k Hk Hs. specialize (H2 i k Hk Hs).
    rewrite list_lookup_fmap, Hk in H2. cbn in H2.
    eexists. rewrite list_lookup_fmap, H2. cbn. repeat split.
Qed.

End Sampling.

(** ** Coordinates through the call *)

Lemma Forall_mapM {A B} (P : A -> Prop) (Q : B -> Prop) (f : A -> result B)
    (l : list A) (out : list B) :
  (forall a b, P a -> f a = inr b -> Q b) ->
  List.Forall P l -> mapM f l = inr out -> List.Forall Q out.
Proof.
  intros Hf. revert out. induction l as [|a l IH]; intros out Hl; cbn [mapM].
  - intros [= <-]. constructor.
  - inversion Hl as [|? ? Ha Hl']; subst.
    destruct (f a) as [e|b] eqn:E; cbn [bind]; [discriminate|].
    destruct (mapM f l) as [e|bs]; cbn [bind]; [discriminate|].
    intros [= <-]. constructor; eauto.
Qed.

Lemma Forall_map_keep {A} (P : A -> Prop) (f : A -> A) (l : list A) :
  (forall r, P r -> P (f r)) -> List.Forall P l -> List.Forall P (map f l).
Proof.
  intros Hf H. apply List.Forall_map. eapply List.Forall_impl; [|exact H]. exact Hf.
Qed.

(** A step that writes other columns keeps a property of the columns it
    leaves alone. *)
Ltac keep_columns :=
  cbv zeta;
  repeat first
    [ apply Forall_loc_assign; [intros ? HH; exact HH|]
    | apply Forall_merge_left; [intros ? ? HH; exact HH|]
    | apply Forall_assign_bins; [intros ? ? HH; exact HH|]
    | apply Forall_map_keep; [intros ? HH; exact HH|] ].

Lemma located_normalise (loc_df : list RawLocation) :
  List.Forall located (map normalise loc_df).
Proof.
  apply List.Forall_map, List.Forall_forall. intros r _. split; cbn; eauto.
Qed.

Lemma Forall_filter_keep {A} (P : A -> Prop) (p : A -> bool) (l : list A) :
  List.Forall P l -> List.Forall P (List.filter p l).
Proof.
  rewrite !List.Forall_forall. intros H x Hx. apply filter_In in Hx as (Hx & _). auto.
Qed.

Lemma located_classify_buildings (self : KeysLookup) (loc_df : list RawLocation) :
  List.Forall located (classify_buildings self loc_df).
Proof.
  unfold classify_buildings.
  assert (H : List.Forall located (get_mobile_home (map normalise loc_df))).
  { unfold get_mobile_home. keep_columns. apply located_normalise. }
  apply List.Forall_app. split.
  - pose proof (Forall_filter_keep located (fun l => occupancycode l <? 1100) _ H) as Hres.
    destruct (List.filter _ _) as [|x xs] eqn:E; [constructor|].
    unfold get_mcm_code_residential, set_mcm_and_cat. keep_columns. exact Hres.
  - pose proof (Forall_filter_keep located (fun l => 1100 <=? occupancycode l) _ H) as Hnon.
    destruct (List.filter _ _) as [|x xs] eqn:E; [constructor|].
    unfold get_mcm_code_non_residential. keep_columns. exact Hnon.
Qed.

Lemma located_enrich_locations (self : KeysLookup) (loc_df : list RawLocation)
    (df : list (Location Z)) :
  enrich_locations self loc_df = inr df -> List.Forall located df.
Proof.
  unfold enrich_locations. pose proof (located_classify_buildings self loc_df) as H.
  destruct (classify_buildings self loc_df) as [|x xs]; [discriminate|].
  destruct (mapM _ _) as [e|df1] eqn:E; cbn [bind]; [discriminate|].
  intros [= <-].
  assert (H1 : List.Forall located df1).
  { eapply (Forall_mapM located located); [| |exact E].
    - intros a b Ha Hb. cbv beta in Hb. destruct (get_floors_occupied (floorsoccupied a));
        cbn [bind] in Hb; [discriminate|].
      injection Hb as <-. exact Ha.
    - unfold get_number_of_storeys. keep_columns. exact H. }
  rewrite get_peril_rows, get_latlon_merge_only.
  unfold get_bi_poi, get_first_floor_height, first_floor_height_metres.
  keep_columns. exact H1.
Qed.

Lemma expand_keys_loc (loc_df : list (Location Z)) (k : Key) :
  In k (expand_keys loc_df) -> In (k_loc k) loc_df.
Proof.
  rewrite expand_keys_flat. intros H.
  apply in_flat_map in H as (p & _ & H). apply in_flat_map in H as (c & _ & H).
  apply in_map_iff in H as (l & <- & Hl). now apply filter_In in Hl as (Hl & _).
Qed.

Lemma resolved_candidate_keys (self : KeysLookup) (loc_df : list (Location Z)) :
  List.Forall located loc_df -> List.Forall resolved (candidate_keys self loc_df).
Proof.
  intros H. unfold candidate_keys, fillna_vulnerability_id, get_latlon_ids,
    assign_vulnerability_id.
  apply List.Forall_map, List.Forall_map.
  assert (H1 : List.Forall (fun k => located (k_loc k)) (suppress_fields (expand_keys loc_df))).
  { unfold suppress_fields, on_loc. keep_columns.
    apply List.Forall_forall. intros k Hk. apply expand_keys_loc in Hk.
    rewrite List.Forall_forall in H. exact (H _ Hk). }
  apply (Forall_merge_left (fun k => located (k_loc k))) with
    (on := vulnerability_on) (right := vulnerability_df self)
    (join := fun k v => set_vulnerability_id (option_map v_vulnerability_id v) k) in H1;
    [|intros a b Ha; exact Ha].
  eapply List.Forall_impl; [|exact H1].
  intros k ((y & Hy) & (x & Hx)). unfold resolved.
  cbn [lat_id lon_id vulnerability_id set_vulnerability_id set_lat_id set_lon_id k_loc].
  rewrite Hy, Hx. cbn [arc_second_id option_map].
  destruct (vulnerability_id k); cbn [fillna]; repeat split; eexists; reflexivity.
Qed.

Lemma classified_keys_at_sampling (self : KeysLookup) (loc_df : list (Location Z)) :
  List.Forall located loc_df -> List.Forall classified (keys_at_sampling self loc_df).
Proof.
  intros H. unfold keys_at_sampling. cbv zeta. rewrite sort_keys_status_rows.
  apply List.Forall_map. unfold assign_at_risk.
  apply resolved_candidate_keys with (self := self) in H.
  apply List.Forall_forall. intros k Hk.
  apply list_elem_of_In, elem_of_lookup_imap_1 in Hk as (i & k0 & -> & Hk0).
  apply list_elem_of_lookup_2, list_elem_of_In in Hk0.
  rewrite List.Forall_forall in H. destruct (H k0 Hk0) as ((y & Hy) & (x & Hx) & _).
  set (k := set_at_risk _ k0).
  assert (Hc : coordinates_defined k = true).
  { unfold coordinates_defined. apply bool_decide_eq_true_2.
    subst k. cbn [lat_id lon_id set_at_risk]. rewrite Hy, Hx.
    split; [exists y|exists x]; reflexivity. }
  cbv zeta. rewrite Hc. unfold classified. clear H Hk0 Hc.
  destruct (vulnerability_valid k), (at_risk k);
    cbn [status_table fst snd set_status_message set_status set_message lat_id lon_id status];
    subst k; cbn [lat_id lon_id set_at_risk]; rewrite Hy, Hx;
    (split; [exists y; reflexivity|split; [exists x; reflexivity|]]);
    first [left; reflexivity | right; left; reflexivity | right; right; reflexivity].
Qed.

Section Coordinates.

Variable uk_tif : option Q -> option Q -> option Z.

(** C10: when a call returns a frame, every key had both grid ids when the
    status table was applied and got success, notatrisk or fail_v from it;
    so every returned row has lat_id and lon_id, none has the status
    fail_ap, and a row with the status fail has the message of a catchment
    that was not found. *)
Theorem coordinates_always_defined (self self' : KeysLookup) (loc_df : list RawLocation)
    (out : list ResultKey) :
  process_locations uk_tif self loc_df = (self', inr out) ->
  (exists df, enrich_locations self loc_df = inr df
              /\ List.Forall classified (keys_at_sampling self df))
  /\ List.Forall (fun r => is_Some (rk_lat_id r) /\ is_Some (rk_lon_id r)
                           /\ rk_status r <> Some STATUS_fail_ap
                           /\ (rk_status r = Some STATUS_fail ->
                               rk_message r = Some "could not find catchment for lat/lon"%string))
                 out.
Proof.
  intros H. apply process_locations_returns in H as (df & keys & Hdf & Hkeys & ->).
  pose proof (classified_keys_at_sampling self df (located_enrich_locations _ _ _ Hdf)) as Hcl.
  split; [exists df; split; [exact Hdf|exact Hcl]|].
  destruct (format_keys_df_rows uk_tif _ _ Hkeys) as (H1 & _).
  apply List.Forall_map, List.Forall_forall. intros r Hr.
  apply list_elem_of_In, list_elem_of_lookup in Hr as (i & Hi).
  destruct (Forall2_lookup_r _ _ _ _ _ H1 Hi) as (r0 & Hr0 & (_ & Hla & Hlo & Hst)).
  rewrite list_lookup_fmap in Hr0.
  destruct (keys_at_sampling self df !! i) as [k|] eqn:Ek; [|discriminate].
  injection Hr0 as <-. cbn [fk_key] in Hla, Hlo, Hst.
  apply list_elem_of_lookup_2, list_elem_of_In in Ek.
  rewrite List.Forall_forall in Hcl. destruct (Hcl k Ek) as (Hy & Hx & Hs).
  clear Hcl Ek H1 Hkeys Hdf Hi.
  unfold result_key. cbn [rk_lat_id rk_lon_id rk_status rk_message].
  rewrite Hla, Hlo. split; [exact Hy|]. split; [exact Hx|].
  destruct Hst as [(Es & Em)|(Es & Em)]; rewrite Es.
  - destruct Hs as [Hs|[Hs|Hs]]; rewrite Hs; split; discriminate.
  - split; [discriminate|]. intros _. exact Em.
Qed.

End Coordinates.

Lemma unsampled_keys_keep_defaults_witness :
  process_locations Example1.uk_tif Example1.self0 [Example1.site 5 1 2 "XX"]
  = (Example1.self_after, inr Example1.out_at_risk)
  /\ List.Forall (fun r => rk_area_peril_id r = -1) Example1.out_at_risk
  /\ exists df, enrich_locations Example1.self0 [Example1.site 5 1 2 "XX"] = inr df
       /\ length Example1.out_at_risk = length (keys_at_sampling Example1.self0 df)
       /\ forall i k, keys_at_sampling Example1.self0 df !! i = Some k ->
            status k <> Some STATUS_success ->
            exists r, Example1.out_at_risk !! i = Some r
              /\ rk_catchment_id r = -1 /\ rk_model_data r = EmptyString
              /\ rk_status r = status k /\ rk_message r = message k.
Proof.
  assert (H : process_locations Example1.uk_tif Example1.self0 [Example1.site 5 1 2 "XX"]
              = (Example1.self_after, inr Example1.out_at_risk)).
  { vm_compute. reflexivity. }
  split; [exact H|].
  exact (unsampled_keys_keep_defaults Example1.uk_tif _ _ _ _ H).
Defined.

Lemma coordinates_always_defined_witness :
  process_locations Example1.uk_tif Example1.self0 [Example1.site 5 0 0 "ab1 2cd"]
  = (Example1.self_after_zero, inr Example1.out_zero)
  /\ (exists df, enrich_locations Example1.self0 [Example1.site 5 0 0 "ab1 2cd"] = inr df
                 /\ List.Forall classified (keys_at_sampling Example1.self0 df))
  /\ List.Forall (fun r => is_Some (rk_lat_id r) /\ is_Some (rk_lon_id r)
                           /\ rk_status r <> Some STATUS_fail_ap
                           /\ (rk_status r = Some STATUS_fail ->
                               rk_message r
                               = Some "could not find catchment for lat/lon"%string))
                 Example1.out_zero.
Proof.
  assert (H : process_locations Example1.uk_tif Example1.self0
                                [Example1.site 5 0 0 "ab1 2cd"]
              = (Example1.self_after_zero, inr Example1.out_zero)).
  { vm_compute. reflexivity. }
  split; [exact H|].
  exact (coordinates_always_defined Example1.uk_tif _ _ _ _ H).
Defined.

(** * Further properties of the lookup *)

(** ** Floors occupied *)






(** ** Number of storeys *)







(** ** Building category *)

Lemma set_building_cat_id {F} (l : Location F) : set_building_cat (building_cat l) l = l.
Proof. now destruct l. Qed.

Lemma cat_if {F} (b : bool) (v : option string) (l : Location F) :
  (if b then set_building_cat v l else l)
  = set_building_cat (if b then v else building_cat l) l.
Proof. destruct b; [reflexivity|]. symmetry. apply set_building_cat_id. Qed.








(** ** First floor height left unset *)

(** [get_first_floor_height] on the sentinel -999: whatever the unit, the
    height becomes 0.6 metres for a mobile home or a nonresidential
    building and 0.3 metres otherwise, and the location gets the bucket
    0.35, respectively 0.25. *)
Theorem unset_first_floor_height_default {F} (l : Location F) :
  (firstfloorheight l == -999)%Q ->
  let raised := mobilehome_cat l || str_eqb (building_cat l) "nonres" in
  get_first_floor_height [l]
  = [set_ffh_cat (Some (if raised then 0.35 else 0.25)%Q)
       (set_firstfloorheight (if raised then 0.6 else 0.3)%Q l)].
Proof.
  intros H. cbv zeta. unfold get_first_floor_height, first_floor_height_metres, loc_assign.
  cbn [map].
  assert (E : Qeqb (firstfloorheight l) (-999) = true) by (apply Qeq_bool_iff; exact H).
  assert (E6 : Qeqb 0.6 (-999) = false) by reflexivity.
  destruct (mobilehome_cat l) eqn:Em, (str_eqb (building_cat l) "nonres") eqn:En;
    repeat (progress (cbn [andb negb orb firstfloorheight set_firstfloorheight building_cat
                           mobilehome_cat];
                      rewrite ?E, ?E6, ?Em, ?En, ?andb_false_r, ?andb_true_r));
    (apply (assign_bins_one ffh_bins (fun b => set_ffh_cat (Some b)));
     [ intros bin c Hbin; unfold ffh_bins in Hbin; cbn [In] in Hbin;
       repeat (destruct Hbin as [<-|Hbin]; [reflexivity|]); destruct Hbin
     | rewrite bins_of_flat; reflexivity ]).
Qed.

(** ** Grid ids *)

Lemma unset_first_floor_height_default_witness :
  (firstfloorheight Example2.plain == -999)%Q
  /\ get_first_floor_height [Example2.plain]
     = [set_ffh_cat (Some 0.25%Q) (set_firstfloorheight 0.3%Q Example2.plain)].
Proof.
  assert (H : (firstfloorheight Example2.plain == -999)%Q) by reflexivity.
  split; [exact H|].
  exact (unset_first_floor_height_default Example2.plain H).
Defined.



(** ** The at-risk grid *)

Lemma flat_map_ext_in {A B} (f g : A -> list B) (l : list A) :
  (forall a, In a l -> f a = g a) -> flat_map f l = flat_map g l.
Proof.
  induction l as [|a l IH]; intros H; cbn [flat_map]; [reflexivity|].
  rewrite (H a (or_introl eq_refl)), IH; [reflexivity|].
  intros b Hb. apply H. now right.
Qed.

Lemma in_imap_pair {A} (l : list A) (i : nat) (x : A) :
  In (i, x) (imap pair l) <-> l !! i = Some x.
Proof.
  rewrite <- list_elem_of_In, elem_of_lookup_imap. split.
  - intros (j & y & [= -> ->] & H). exact H.
  - intros H. now exists i, x.
Qed.

Lemma at_risk_on_spec (ik : nat * Key) (a : AtRiskRow) :
  at_risk_on ik a = true <->
  lat_id (snd ik) = Some (ar_lat_id a) /\ lon_id (snd ik) = Some (ar_lon_id a)
  /\ peril_id (snd ik) = ar_peril_id a.
Proof.
  unfold at_risk_on. rewrite !andb_true_iff, String.eqb_eq.
  destruct (lat_id (snd ik)) as [y|], (lon_id (snd ik)) as [x|];
    rewrite ?Z.eqb_eq; intuition (try discriminate; try congruence).
Qed.

(** The cells a key can match survive the narrowing by the keys. *)
Lemma narrowed_matches (keys_df : list Key) (t : list AtRiskRow) (ik : nat * Key) :
  In (snd ik) keys_df ->
  List.filter (at_risk_on ik) (narrow_at_risk_df keys_df t) = List.filter (at_risk_on ik) t.
Proof.
  intros Hk. unfold narrow_at_risk_df.
  induction t as [|a t IH]; [reflexivity|]. cbn [List.filter].
  destruct (at_risk_on ik a) eqn:Ea.
  - pose proof (proj1 (at_risk_on_spec ik a) Ea) as (Hla & Hlo & _).
    assert (H1 : isin (Some (ar_lat_id a)) (unique (map lat_id keys_df)) = true).
    { unfold isin, unique. apply bool_decide_eq_true_2, elem_of_remove_dups.
      rewrite <- Hla. apply list_elem_of_In, in_map, Hk. }
    assert (H2 : isin (Some (ar_lon_id a)) (unique (map lon_id keys_df)) = true).
    { unfold isin, unique. apply bool_decide_eq_true_2, elem_of_remove_dups.
      rewrite <- Hlo. apply list_elem_of_In, in_map, Hk. }
    rewrite H1. cbn [List.filter]. rewrite H2. cbn [List.filter].
    rewrite Ea. now rewrite IH.
  - destruct (isin (Some (ar_lat_id a)) _); cbn [List.filter]; [|exact IH].
    destruct (isin (Some (ar_lon_id a)) _); cbn [List.filter]; [|exact IH].
    rewrite Ea. exact IH.
Qed.

(** The narrowing of the grid does not change the at-risk test of the call
    that narrows it: the keys get the same flags from the narrowed grid as
    from the whole grid, and the flag of a key says whether the whole grid
    has a cell with its peril id and its two grid ids. *)
Theorem narrowing_keeps_at_risk_flags (keys_df : list Key) (at_risk_df : list AtRiskRow) :
  assign_at_risk (narrow_at_risk_df keys_df at_risk_df) keys_df
  = assign_at_risk at_risk_df keys_df
  /\ forall i k, keys_df !! i = Some k ->
       exists k', assign_at_risk (narrow_at_risk_df keys_df at_risk_df) keys_df !! i = Some k'
         /\ k' = set_at_risk (at_risk k') k
         /\ (at_risk k' = true <->
             exists a, In a at_risk_df /\ lat_id k = Some (ar_lat_id a)
                       /\ lon_id k = Some (ar_lon_id a) /\ peril_id k = ar_peril_id a).
Proof.
  assert (Heq : merge_inner at_risk_on (fun (ik : nat * Key) (_ : AtRiskRow) => fst ik)
                            (imap pair keys_df) (narrow_at_risk_df keys_df at_risk_df)
                = merge_inner at_risk_on (fun (ik : nat * Key) (_ : AtRiskRow) => fst ik)
                              (imap pair keys_df) at_risk_df).
  { unfold merge_inner. apply flat_map_ext_in. intros [i k] Hik.
    rewrite narrowed_matches; [reflexivity|].
    apply in_imap_pair in Hik. cbn [snd].
    apply list_elem_of_In. eapply list_elem_of_lookup_2. exact Hik. }
  assert (Hall : assign_at_risk (narrow_at_risk_df keys_df at_risk_df) keys_df
                 = assign_at_risk at_risk_df keys_df).
  { unfold assign_at_risk. now rewrite Heq. }
  split; [exact Hall|]. intros i k Hk. rewrite Hall. unfold assign_at_risk.
  rewrite list_lookup_imap, Hk. cbn [fmap option_fmap option_map].
  eexists. split; [reflexivity|]. cbn [at_risk set_at_risk]. split; [reflexivity|].
  unfold isin. rewrite bool_decide_eq_true, list_elem_of_In. unfold merge_inner.
  rewrite in_flat_map. split.
  - intros ([i' k'] & Hik & Hin). apply in_map_iff in Hin as (a & Hi & Ha).
    cbn [fst] in Hi. subst i'. apply in_imap_pair in Hik. rewrite Hk in Hik.
    injection Hik as <-. apply filter_In in Ha as (Ha & Hon).
    apply at_risk_on_spec in Hon. exists a. split; [exact Ha|exact Hon].
  - intros (a & Ha & Hon). exists (i, k). split; [now apply in_imap_pair|].
    apply in_map_iff. exists a. split; [reflexivity|].
    apply filter_In. split; [exact Ha|]. now apply at_risk_on_spec.
Qed.

Lemma narrowing_keeps_at_risk_flags_witness :
  Example2.keys !! 0%nat = Some (hd Example1.bi_key Example2.keys)
  /\ exists k', assign_at_risk (narrow_at_risk_df Example2.keys (at_risk_df Example1.self0))
                               Example2.keys !! 0%nat = Some k'
       /\ k' = set_at_risk (at_risk k') (hd Example1.bi_key Example2.keys)
       /\ (at_risk k' = true <->
           exists a, In a (at_risk_df Example1.self0)
                     /\ lat_id (hd Example1.bi_key Example2.keys) = Some (ar_lat_id a)
                     /\ lon_id (hd Example1.bi_key Example2.keys) = Some (ar_lon_id a)
                     /\ peril_id (hd Example1.bi_key Example2.keys) = ar_peril_id a).
Proof.
  assert (H : Example2.keys !! 0%nat = Some (hd Example1.bi_key Example2.keys))
    by reflexivity.
  split; [exact H|].
  exact (proj2 (narrowing_keeps_at_risk_flags Example2.keys (at_risk_df Example1.self0))
               0%nat _ H).
Defined.

(** ** What a call leaves of the lookup object *)

Section State.

Variable uk_tif : option Q -> option Q -> option Z.

Lemma filter_incl_cells {A} (p : A -> bool) (l : list A) (x : A) :
  In x (List.filter p l) -> In x l.
Proof. intros H. now apply filter_In in H. Qed.

(** A call changes nothing of the lookup object but the at-risk grid; of the
    grid it keeps, in their order, the cells whose lat_id and whose lon_id
    occur among the keys of the call, so that no call ever adds a cell. *)
Theorem process_locations_only_narrows (self : KeysLookup) (loc_df : list RawLocation) :
  let self' := fst (process_locations uk_tif self loc_df) in
  vulnerability_df self' = vulnerability_df self
  /\ mcm_res_df self' = mcm_res_df self
  /\ mcm_nonres_df self' = mcm_nonres_df self
  /\ postcode_df self' = postcode_df self
  /\ yearbuilt_df self' = yearbuilt_df self
  /\ (forall a, In a (at_risk_df self') -> In a (at_risk_df self))
  /\ exists keep, at_risk_df self' = List.filter keep (at_risk_df self).
Proof.
  cbv zeta. rewrite process_locations_unfold.
  destruct (enrich_locations self loc_df) as [e|df]; cbn [fst].
  - repeat split; try reflexivity; [auto|].
    exists (fun _ => true). induction (at_risk_df self) as [|a t IH]; [reflexivity|].
    cbn [List.filter]. now rewrite <- IH.
  - cbn [vulnerability_df mcm_res_df mcm_nonres_df postcode_df yearbuilt_df at_risk_df
         set_at_risk_df].
    repeat split; try reflexivity.
    + unfold narrow_at_risk_df. intros a Ha.
      apply filter_incl_cells in Ha. apply filter_incl_cells in Ha. exact Ha.
    + unfold narrow_at_risk_df.
      set (p := fun a => isin (Some (ar_lat_id a)) _).
      set (q := fun a => isin (Some (ar_lon_id a)) _).
      exists (fun a => p a && q a). clearbody p q.
      induction (at_risk_df self) as [|a t IH]; [reflexivity|]. cbn [List.filter].
      destruct (p a); cbn [List.filter andb]; [|exact IH].
      destruct (q a); [now rewrite IH|exact IH].
Qed.

End State.

(** ** When a call raises *)

(** The values of a column [f] that a step leaves alone. *)
Lemma values_loc_assign {A V} (f : A -> V) (mask : A -> bool) (upd : A -> A) (df : list A) :
  (forall r, f (upd r) = f r) -> map f (loc_assign mask upd df) = map f df.
Proof.
  intros H. unfold loc_assign. rewrite map_map. apply map_ext. intros r.
  destruct (mask r); [apply H|reflexivity].
Qed.


Lemma values_assign_bins {A B V} (f : A -> V) (bins : list ((A -> bool) * B))
    (set : B -> A -> A) (df : list A) :
  (forall b r, f (set b r) = f r) -> map f (assign_bins bins set df) = map f df.
Proof.
  intros H. unfold assign_bins. revert df.
  induction bins as [|bin bins IH]; intros df; cbn [fold_left]; [reflexivity|].
  rewrite IH. apply values_loc_assign. intros r. apply H.
Qed.









Section Raising.

Variable uk_tif : option Q -> option Q -> option Z.





End Raising.

(** ** The keys that are sampled *)

Lemma fst_imap_pair {A} (l : list A) (n : nat) :
  map fst (imap (fun j x => ((n + j)%nat, x)) l) = seq n (length l).
Proof.
  revert n. induction l as [|x l IH]; intros n; [reflexivity|].
  cbn [imap map fst length seq]. rewrite Nat.add_0_r. f_equal.
  rewrite <- IH. f_equal. apply imap_ext. intros j y _. cbn. f_equal. lia.
Qed.

Lemma NoDup_fst_filter {A B} (p : A * B -> bool) (l : list (A * B)) :
  List.NoDup (map fst l) -> List.NoDup (map fst (List.filter p l)).
Proof.
  induction l as [|x l IH]; cbn [map List.filter]; [auto|].
  intros H. inversion H as [|? ? Hx Hl]; subst.
  destruct (p x); cbn [map]; [|now apply IH].
  constructor; [|now apply IH]. intros Hin. apply Hx.
  apply in_map_iff in Hin as (y & Hy & Hin). apply filter_In in Hin as (Hin & _).
  apply in_map_iff. now exists y.
Qed.

Section Sampled.

Variable uk_tif : option Q -> option Q -> option Z.

(** In a loop over rows with different index labels, the row of a label is
    written by the turn of that label and by no other. *)
Lemma fold_format_step_at (l : list (nat * FKey)) (df0 df out : list FKey) :
  List.NoDup (map fst l) -> Forall2 sampled df0 df ->
  fold_left (format_step uk_tif) l (inr df) = inr out ->
  forall i row, In (i, row) l ->
    exists df1 df2, df1 !! i = df !! i /\ format_key uk_tif df1 i row = inr df2
                    /\ out !! i = df2 !! i.
Proof.
  revert df. induction l as [|[i0 row0] l IH]; intros df Hnd Hs Hfold i row Hin;
    [destruct Hin|].
  cbn [fold_left] in Hfold. unfold format_step at 2 in Hfold. cbn [bind fst snd] in Hfold.
  destruct (format_key uk_tif df i0 row0) as [e|df'] eqn:E;
    [rewrite fold_format_step_raised in Hfold; discriminate|].
  cbn [map fst] in Hnd. inversion Hnd as [|? ? Hi0 Hl]; subst.
  pose proof (format_key_sampled uk_tif _ _ _ _ _ Hs E) as Hs'.
  destruct Hin as [[= -> ->]|Hin].
  - exists df, df'. split; [reflexivity|]. split; [exact E|].
    apply (fold_format_step uk_tif _ _ _ _ Hs' Hfold).
    intros ir Hir <-. apply Hi0. now apply in_map.
  - destruct (IH df' Hl Hs' Hfold i row Hin) as (df1 & df2 & H1 & H2 & H3).
    exists df1, df2. split; [|split; assumption].
    rewrite H1. apply (format_key_elsewhere uk_tif _ _ i0 i row0); [|exact E].
    intros <-. apply Hi0. apply (in_map fst) in Hin. exact Hin.
Qed.

(** The row of a key whose status is success, after [format_keys_df]. *)
Lemma format_keys_df_success_row (keys_df : list Key) (out : list FKey) (i : nat) (k : Key) :
  format_keys_df uk_tif keys_df = inr out ->
  keys_df !! i = Some k ->
  status k = Some STATUS_success ->
  exists r, out !! i = Some r /\ area_peril_id r = -1
    /\ match uk_tif (longitude (k_loc k)) (latitude (k_loc k)) with
       | Some catchment =>
           if catchment <? 0
           then fk_key r = set_status_message OASIS_KEYS_FL
                             "could not find catchment for lat/lon" k
                /\ catchment_id r = -1 /\ model_data r = EmptyString
           else fk_key r = k /\ catchment_id r = catchment
                /\ model_data_json {| fk_key := k; catchment_id := -1; area_peril_id := -1;
                                      model_data := EmptyString |} catchment
                   = inr (model_data r)
       | None => fk_key r = set_status_message OASIS_KEYS_FL
                              "could not find catchment for lat/lon" k
                 /\ catchment_id r = -1 /\ model_data r = EmptyString
       end.
Proof.
  intros Hout Hk Hs. rewrite format_keys_df_fold in Hout. cbv zeta in Hout.
  set (df0 := map (fun k => {| fk_key := k; catchment_id := -1; area_peril_id := -1;
                               model_data := EmptyString |}) keys_df) in *.
  set (row := {| fk_key := k; catchment_id := -1; area_peril_id := -1;
                 model_data := EmptyString |}).
  assert (Hrow : df0 !! i = Some row).
  { subst df0. rewrite list_lookup_fmap, Hk. reflexivity. }
  assert (Hin : In (i, row)
                   (List.filter (fun ir => str_eqb (status (fk_key (snd ir))) STATUS_success)
                                (imap pair df0))).
  { apply filter_In. split; [now apply in_imap_pair|].
    cbn [snd fk_key row]. subst row. cbn [fk_key]. rewrite Hs. reflexivity. }
  assert (Hnd : List.NoDup
                  (map fst (List.filter
                              (fun ir => str_eqb (status (fk_key (snd ir))) STATUS_success)
                              (imap pair df0)))).
  { apply NoDup_fst_filter.
    assert (Hseq : map fst (imap pair df0) = seq 0 (length df0))
      by exact (fst_imap_pair df0 0).
    rewrite Hseq. apply List.seq_NoDup. }
  destruct (fold_format_step_at _ df0 df0 out Hnd (sampled_refl df0) Hout i row Hin)
    as (df1 & df2 & H1 & H2 & H3).
  rewrite Hrow in H1. rewrite H3. clear Hout Hin Hnd H3.
  unfold format_key in H2. subst row. cbn [fk_key] in H2.
  destruct (uk_tif (longitude (k_loc k)) (latitude (k_loc k))) as [c|].
  - destruct (c <? 0).
    + injection H2 as <-. rewrite catchment_not_found_alter, list_lookup_alter_eq, H1.
      eexists. split; [reflexivity|]. repeat split.
    + destruct (model_data_json _ c) as [e|json] eqn:Ej; cbn [bind] in H2; [discriminate|].
      injection H2 as <-.
      rewrite list_lookup_alter_eq, list_lookup_alter_eq, H1.
      eexists. split; [reflexivity|]. repeat split.
  - injection H2 as <-. rewrite catchment_not_found_alter, list_lookup_alter_eq, H1.
    eexists. split; [reflexivity|]. repeat split.
Qed.

(** What [format_keys_df] does to a key whose status is success: when the
    raster has a pixel under its coordinates and the value is not negative,
    the key keeps its columns and gets the value as catchment_id and the
    json text of [model_data_json] as model_data; when the raster has no
    pixel there or the value is negative, the key gets the status fail and
    the message that the catchment was not found, and keeps the catchment_id
    -1 and the empty model_data.  The area_peril_id is -1 in both cases. *)
Theorem success_keys_are_sampled (keys_df : list Key) (out : list FKey) (i : nat) (k : Key) :
  format_keys_df uk_tif keys_df = inr out ->
  keys_df !! i = Some k ->
  status k = Some STATUS_success ->
  exists r, out !! i = Some r /\ area_peril_id r = -1
    /\ match uk_tif (longitude (k_loc k)) (latitude (k_loc k)) with
       | Some catchment =>
           if catchment <? 0
           then fk_key r = set_status_message OASIS_KEYS_FL
                             "could not find catchment for lat/lon" k
                /\ catchment_id r = -1 /\ model_data r = EmptyString
           else fk_key r = k /\ catchment_id r = catchment
                /\ model_data_json {| fk_key := k; catchment_id := -1; area_peril_id := -1;
                                      model_data := EmptyString |} catchment
                   = inr (model_data r)
       | None => fk_key r = set_status_message OASIS_KEYS_FL
                              "could not find catchment for lat/lon" k
                 /\ catchment_id r = -1 /\ model_data r = EmptyString
       end.
Proof. exact (format_keys_df_success_row keys_df out i k). Qed.

End Sampled.

Lemma success_keys_are_sampled_witness :
  format_keys_df Example1.uk_tif Example2.keys = inr Example2.formatted
  /\ Example2.keys !! 0%nat = Some (hd Example1.bi_key Example2.keys)
  /\ status (hd Example1.bi_key Example2.keys) = Some STATUS_success
  /\ exists r, Example2.formatted !! 0%nat = Some r /\ area_peril_id r = -1
       /\ fk_key r = hd Example1.bi_key Example2.keys /\ catchment_id r = 12
       /\ model_data_json {| fk_key := hd Example1.bi_key Example2.keys; catchment_id := -1;
                             area_peril_id := -1; model_data := EmptyString |} 12
          = inr (model_data r).
Proof.
  assert (H1 : format_keys_df Example1.uk_tif Example2.keys = inr Example2.formatted)
    by (vm_compute; reflexivity).
  assert (H2 : Example2.keys !! 0%nat = Some (hd Example1.bi_key Example2.keys))
    by reflexivity.
  assert (H3 : status (hd Example1.bi_key Example2.keys) = Some STATUS_success)
    by reflexivity.
  split; [exact H1|]. split; [exact H2|]. split; [exact H3|].
  exact (success_keys_are_sampled Example1.uk_tif Example2.keys Example2.formatted 0%nat
           (hd Example1.bi_key Example2.keys) H1 H2 H3).
Defined.

(** ** The rows a call returns *)

(** The status the table gives a key at the time of sampling, by its
    vulnerability id. *)
Lemma keys_at_sampling_status (self : KeysLookup) (loc_df : list (Location Z)) (k : Key) :
  List.Forall located loc_df -> In k (keys_at_sampling self loc_df) ->
  exists v, vulnerability_id k = Some v
    /\ ((v = -1 /\ status k = Some STATUS_fail_v)
        \/ (v <> -1 /\ status k = Some STATUS_success /\ message k = Some EmptyString)
        \/ (v <> -1 /\ status k = Some STATUS_notatrisk)).
Proof.
  intros H Hk. apply resolved_candidate_keys with (self := self) in H.
  unfold keys_at_sampling in Hk. cbv zeta in Hk. rewrite sort_keys_status_rows in Hk.
  apply in_map_iff in Hk as (k1 & <- & Hk1). unfold assign_at_risk in Hk1.
  apply list_elem_of_In, elem_of_lookup_imap_1 in Hk1 as (i & k0 & -> & Hk0).
  apply list_elem_of_lookup_2, list_elem_of_In in Hk0.
  rewrite List.Forall_forall in H. destruct (H k0 Hk0) as ((y & Hy) & (x & Hx) & (v & Hv)).
  clear H Hk0. set (k := set_at_risk _ k0).
  assert (Hc : coordinates_defined k = true).
  { unfold coordinates_defined. apply bool_decide_eq_true_2.
    subst k. cbn [lat_id lon_id set_at_risk]. rewrite Hy, Hx.
    split; [exists y|exists x]; reflexivity. }
  assert (Hvk : vulnerability_id k = Some v) by exact Hv.
  exists v. cbv zeta. rewrite Hc.
  cbn [vulnerability_id set_status_message set_status set_message status message].
  split; [exact Hvk|]. unfold vulnerability_valid. rewrite Hvk.
  destruct (Z.eq_dec v (-1)) as [->|Hne].
  - left. split; [reflexivity|]. rewrite bool_decide_eq_true_2 by reflexivity. reflexivity.
  - right. rewrite bool_decide_eq_false_2 by congruence. cbn [negb].
    destruct (at_risk k); [left|right]; repeat split; assumption.
Qed.

Lemma model_data_json_not_empty (row : FKey) (c : Z) (json : string) :
  model_data_json row c = inr json -> json <> EmptyString.
Proof.
  unfold model_data_json.
  destruct (int_of_float (lat_id (fk_key row))); cbn [bind]; [discriminate|].
  destruct (int_of_float (lon_id (fk_key row))); cbn [bind]; [discriminate|].
  destruct (int_of_float (vulnerability_id (fk_key row))); cbn [bind]; [discriminate|].
  intros [= <-]. discriminate.
Qed.

Section Returned.

Variable uk_tif : option Q -> option Q -> option Z.

(** Every row of the frame a call returns is of one of four kinds: success,
    with a vulnerability id other than -1, a catchment id that is not
    negative, a model_data that is not empty and the empty message;
    notatrisk, with a vulnerability id other than -1; fail_v, with the
    vulnerability id -1; or fail, with a vulnerability id other than -1 and
    the message that the catchment was not found.  The last three carry the
    catchment id -1 and the empty model_data. *)
Theorem returned_rows_by_status (self self' : KeysLookup) (loc_df : list RawLocation)
    (out : list ResultKey) :
  process_locations uk_tif self loc_df = (self', inr out) ->
  List.Forall
    (fun r =>
       exists v, rk_vulnerability_id r = Some v
         /\ ((rk_status r = Some STATUS_success /\ v <> -1 /\ 0 <= rk_catchment_id r
              /\ rk_model_data r <> EmptyString /\ rk_message r = Some EmptyString)
             \/ (rk_catchment_id r = -1 /\ rk_model_data r = EmptyString
                 /\ ((rk_status r = Some STATUS_notatrisk /\ v <> -1)
                     \/ (rk_status r = Some STATUS_fail_v /\ v = -1)
                     \/ (rk_status r = Some STATUS_fail /\ v <> -1
                         /\ rk_message r
                            = Some "could not find catchment for lat/lon"%string)))))
    out.
Proof.
  intros H. apply process_locations_returns in H as (df & keys & Hdf & Hkeys & ->).
  pose proof (located_enrich_locations self loc_df df Hdf) as Hloc.
  destruct (format_keys_df_rows uk_tif _ _ Hkeys) as (H1 & H2).
  apply List.Forall_map, List.Forall_forall. intros r Hr.
  apply list_elem_of_In, list_elem_of_lookup in Hr as (i & Hi).
  destruct (Forall2_lookup_r _ _ _ _ _ H1 Hi) as (r0 & Hr0 & _).
  rewrite list_lookup_fmap in Hr0.
  destruct (keys_at_sampling self df !! i) as [k|] eqn:Ek; [|discriminate].
  clear Hr0 r0 H1.
  assert (Hin : In k (keys_at_sampling self df)).
  { apply list_elem_of_In. eapply list_elem_of_lookup_2. exact Ek. }
  destruct (keys_at_sampling_status self df k Hloc Hin) as (v & Hv & Hst).
  exists v. unfold result_key.
  cbn [rk_vulnerability_id rk_status rk_catchment_id rk_model_data rk_message].
  destruct Hst as [(-> & Hs)|[(Hne & Hs & Hm)|(Hne & Hs)]].
  - specialize (H2 i k Ek). rewrite Hs in H2.
    assert (Hi' : keys !! i = Some {| fk_key := k; catchment_id := -1; area_peril_id := -1;
                                      model_data := EmptyString |}).
    { rewrite H2 by discriminate. rewrite list_lookup_fmap, Ek. reflexivity. }
    rewrite Hi in Hi'. injection Hi' as ->. cbn [fk_key catchment_id model_data].
    split; [exact Hv|]. right. repeat split. right. left. split; [exact Hs|reflexivity].
  - destruct (format_keys_df_success_row uk_tif _ _ i k Hkeys Ek Hs) as (r' & Hr' & _ & Hcase).
    rewrite Hi in Hr'. injection Hr' as <-.
    destruct (uk_tif (longitude (k_loc k)) (latitude (k_loc k))) as [c|].
    + destruct (Z.ltb_spec c 0) as [Hlt|Hge].
      * destruct Hcase as (-> & -> & ->). cbn [vulnerability_id status message
          set_status_message set_status set_message].
        split; [exact Hv|]. right. repeat split. right. right. repeat split. exact Hne.
      * destruct Hcase as (-> & -> & Hjson). split; [exact Hv|]. left.
        repeat split; try assumption.
        exact (model_data_json_not_empty _ _ _ Hjson).
    + destruct Hcase as (-> & -> & ->). cbn [vulnerability_id status message
        set_status_message set_status set_message].
      split; [exact Hv|]. right. repeat split. right. right. repeat split. exact Hne.
  - specialize (H2 i k Ek). rewrite Hs in H2.
    assert (Hi' : keys !! i = Some {| fk_key := k; catchment_id := -1; area_peril_id := -1;
                                      model_data := EmptyString |}).
    { rewrite H2 by discriminate. rewrite list_lookup_fmap, Ek. reflexivity. }
    rewrite Hi in Hi'. injection Hi' as ->. cbn [fk_key catchment_id model_data].
    split; [exact Hv|]. right. repeat split. left. split; [exact Hs|exact Hne].
Qed.

End Returned.

Lemma returned_rows_by_status_witness :
  process_locations Example1.uk_tif Example1.self0 [Example1.site 5 1 2 "XX"]
  = (Example1.self_after, inr Example1.out_at_risk)
  /\ List.Forall
       (fun r =>
          exists v, rk_vulnerability_id r = Some v
            /\ ((rk_status r = Some STATUS_success /\ v <> -1 /\ 0 <= rk_catchment_id r
                 /\ rk_model_data r <> EmptyString /\ rk_message r = Some EmptyString)
                \/ (rk_catchment_id r = -1 /\ rk_model_data r = EmptyString
                    /\ ((rk_status r = Some STATUS_notatrisk /\ v <> -1)
                        \/ (rk_status r = Some STATUS_fail_v /\ v = -1)
                        \/ (rk_status r = Some STATUS_fail /\ v <> -1
                            /\ rk_message r
                               = Some "could not find catchment for lat/lon"%string)))))
       Example1.out_at_risk.
Proof.
  assert (H : process_locations Example1.uk_tif Example1.self0 [Example1.site 5 1 2 "XX"]
              = (Example1.self_after, inr Example1.out_at_risk))
    by (vm_compute; reflexivity).
  split; [exact H|].
  exact (returned_rows_by_status Example1.uk_tif _ _ _ _ H).
Defined.

(** ** The list of model files *)

Lemma model_files_chunk (files : gset string) (ids : list Z) (f : string) :
  f ∈ fold_left
        (fun model_files catchment_id =>
           if catchment_id <? 1 then model_files
           else {[catchment_events_file catchment_id]}
                ∪ ({[catchment_file catchment_id]} ∪ model_files)) ids files
  <-> f ∈ files \/ exists c, In c ids /\ 1 <= c /\ In f (catchment_files c).
Proof.
  revert files. induction ids as [|c ids IH]; intros files; cbn [fold_left].
  - split; [auto|]. intros [H|(c & [] & _)]. exact H.
  - rewrite IH. destruct (Z.ltb_spec c 1) as [Hlt|Hge].
    + split.
      * intros [H|(c' & Hc' & H)]; [now left|]. right. exists c'. split; [now right|exact H].
      * intros [H|(c' & [<-|Hc'] & Hge & H)]; [now left|lia|].
        right. exists c'. split; [exact Hc'|]. split; assumption.
    + rewrite !elem_of_union, !elem_of_singleton. split.
      * intros [[H|[H|H]]|(c' & Hc' & H)].
        -- right. exists c. split; [now left|]. split; [exact Hge|]. rewrite H.
           unfold catchment_files. cbn [In]. auto.
        -- right. exists c. split; [now left|]. split; [exact Hge|]. rewrite H.
           unfold catchment_files. cbn [In]. auto.
        -- now left.
        -- right. exists c'. split; [now right|exact H].
      * intros [H|(c' & [<-|Hc'] & Hge' & H)].
        -- left. auto.
        -- left. unfold catchment_files in H. cbn [In] in H.
           destruct H as [<-|[<-|[]]]; auto.
        -- right. exists c'. split; [exact Hc'|]. split; assumption.
Qed.

(** [write_keys_file]: a name is written to model_data_files.csv exactly when
    it is one of [MODEL_FILES] or one of the two files of a catchment id of
    1 or more that some row of some chunk carries.  Rows with a catchment id
    below 1, such as the -1 of the keys that were not sampled, add
    nothing. *)
Theorem model_files_listed (MODEL_FILES : list string) (results : list (list ResultKey))
    (f : string) :
  f ∈ model_files MODEL_FILES results
  <-> In f MODEL_FILES
      \/ exists result r, In result results /\ In r result
           /\ 1 <= rk_catchment_id r /\ In f (catchment_files (rk_catchment_id r)).
Proof.
  unfold model_files.
  assert (H : forall files : gset string,
             f ∈ fold_left
                   (fun model_files result =>
                      fold_left
                        (fun model_files catchment_id =>
                           if catchment_id <? 1 then model_files
                           else {[catchment_events_file catchment_id]}
                                ∪ ({[catchment_file catchment_id]} ∪ model_files))
                        (unique (map rk_catchment_id result)) model_files)
                   results files
             <-> f ∈ files
                 \/ exists result r, In result results /\ In r result
                      /\ 1 <= rk_catchment_id r
                      /\ In f (catchment_files (rk_catchment_id r))).
  { induction results as [|result results IH]; intros files; cbn [fold_left].
    - split; [auto|]. intros [H|(result & r & [] & _)]. exact H.
    - rewrite IH, model_files_chunk. split.
      + intros [[H|(c & Hc & Hge & Hf)]|(result' & r & Hres & Hr)].
        * now left.
        * right. unfold unique in Hc.
          apply list_elem_of_In, elem_of_remove_dups, list_elem_of_In, in_map_iff in Hc
            as (r & <- & Hr).
          exists result, r. split; [now left|]. repeat split; assumption.
        * right. exists result', r. split; [now right|exact Hr].
      + intros [H|(result' & r & [<-|Hres] & Hr & Hge & Hf)].
        * left. now left.
        * left. right. exists (rk_catchment_id r). split; [|split; assumption].
          unfold unique. apply list_elem_of_In, elem_of_remove_dups, list_elem_of_In.
          now apply in_map.
        * right. exists result', r. repeat split; assumption. }
  rewrite H, elem_of_list_to_set, list_elem_of_In. reflexivity.
Qed.

(** ** The vulnerability table after [__init__] *)

Lemma init_vulnerability_df_rows (csv : list VulnerabilityRow) :
  init_vulnerability_df csv
  = map (fun v => set_v_peril_type (recoded_peril_type (v_peril_type v)) v) csv.
Proof.
  unfold init_vulnerability_df, loc_assign. rewrite !map_map. apply map_ext. intros v.
  destruct v as [m c p u i]. cbn [v_coveragetype_id].
  assert (Hc : forall z, (if c =? z then set_v_coveragetype_id z (mkVulnerabilityRow m c p u i)
                          else mkVulnerabilityRow m c p u i) = mkVulnerabilityRow m c p u i).
  { intros z. destruct (Z.eqb_spec c z) as [->|]; reflexivity. }
  unfold buildings_id, contents_id, bi_id.
  rewrite (Hc 1). cbn [v_coveragetype_id]. rewrite (Hc 3). cbn [v_coveragetype_id].
  rewrite (Hc 4). cbn [v_peril_type].
  destruct p as [z|s]; [|reflexivity]. cbn [cell_is_int].
  destruct (Z.eqb_spec z 1) as [->|N1]; [reflexivity|]. cbn [v_peril_type cell_is_int].
  destruct (Z.eqb_spec z 2) as [->|N2]; [reflexivity|]. cbn [v_peril_type cell_is_int].
  destruct (Z.eqb_spec z 3) as [->|N3]; [reflexivity|]. cbn [v_peril_type cell_is_int].
  destruct (Z.eqb_spec z (-9999)) as [->|N9]; [reflexivity|].
  unfold set_v_peril_type. cbn. f_equal.
  destruct z as [|q|q]; try reflexivity.
  - destruct q as [[q|q|]|[q|q|]|]; try reflexivity; lia.
  - assert (Hq : q <> 9999%positive) by lia. unfold recoded_peril_type.
    repeat (destruct q as [q|q|]; try reflexivity). contradiction.
Qed.

Lemma recoded_peril_type_number (c : cell) (z : Z) :
  recoded_peril_type c = CInt z ->
  c = CInt z /\ z <> 1 /\ z <> 2 /\ z <> 3 /\ z <> -9999.
Proof.
  destruct c as [y|s]; [|discriminate].
  destruct (Z.eq_dec y 1) as [->|N1]; [discriminate|].
  destruct (Z.eq_dec y 2) as [->|N2]; [discriminate|].
  destruct (Z.eq_dec y 3) as [->|N3]; [discriminate|].
  destruct (Z.eq_dec y (-9999)) as [->|N9]; [discriminate|].
  assert (H : recoded_peril_type (CInt y) = CInt y).
  { destruct y as [|q|q]; try reflexivity.
    - destruct q as [[q|q|]|[q|q|]|]; try reflexivity; lia.
    - assert (Hq : q <> 9999%positive) by lia. unfold recoded_peril_type.
      repeat (destruct q as [q|q|]; try reflexivity). contradiction. }
  rewrite H. intros [= <-]. repeat split; assumption.
Qed.

(** [__init__]: the three assignments on coveragetype_id change no row (the
    ids of buildings, contents and bi are the codes 1, 3 and 4 of the file);
    the peril codes 1, 2, 3 and -9999 become ORF, OSF, WSS and the text of
    all three, every other column is as in the file; and a row with any
    other peril code keeps it as a number and is joined to no key. *)
Theorem init_vulnerability_df_recodes (csv : list VulnerabilityRow) :
  init_vulnerability_df csv
  = map (fun v => set_v_peril_type (recoded_peril_type (v_peril_type v)) v) csv
  /\ map v_coveragetype_id (init_vulnerability_df csv) = map v_coveragetype_id csv
  /\ forall v z, In v (init_vulnerability_df csv) -> v_peril_type v = CInt z ->
       z <> 1 /\ z <> 2 /\ z <> 3 /\ z <> -9999
       /\ forall k, vulnerability_on k v = false.
Proof.
  split; [apply init_vulnerability_df_rows|]. split.
  - rewrite init_vulnerability_df_rows, map_map. apply map_ext. intros v. reflexivity.
  - intros v z Hv Hz. rewrite init_vulnerability_df_rows in Hv.
    apply in_map_iff in Hv as (v0 & <- & _). cbn [v_peril_type set_v_peril_type] in Hz.
    destruct (recoded_peril_type_number _ _ Hz) as (_ & N1 & N2 & N3 & N9).
    repeat (split; [assumption|]).
    intros k. unfold vulnerability_on. cbn [v_peril_type set_v_peril_type]. rewrite Hz.
    destruct (peril_type k); cbn [cell_is_str]; now rewrite ?andb_false_r.
Qed.

Lemma init_vulnerability_df_recodes_witness :
  In (mkVulnerabilityRow 1 1 (CInt 7) 0 101)
     (init_vulnerability_df [mkVulnerabilityRow 1 1 (CInt 7) 0 101])
  /\ v_peril_type (mkVulnerabilityRow 1 1 (CInt 7) 0 101) = CInt 7
  /\ 7 <> 1 /\ 7 <> 2 /\ 7 <> 3 /\ 7 <> -9999
  /\ forall k, vulnerability_on k (mkVulnerabilityRow 1 1 (CInt 7) 0 101) = false.
Proof.
  assert (H1 : In (mkVulnerabilityRow 1 1 (CInt 7) 0 101)
                  (init_vulnerability_df [mkVulnerabilityRow 1 1 (CInt 7) 0 101])).
  { vm_compute. left. reflexivity. }
  assert (H2 : v_peril_type (mkVulnerabilityRow 1 1 (CInt 7) 0 101) = CInt 7)
    by reflexivity.
  split; [exact H1|]. split; [exact H2|].
  exact (proj2 (proj2 (init_vulnerability_df_recodes
                         [mkVulnerabilityRow 1 1 (CInt 7) 0 101])) _ 7 H1 H2).
Defined.

(** ** Where the returned rows come from *)

Lemma comes_from_classify_buildings (self : KeysLookup) (loc_df : list RawLocation) :
  List.Forall (comes_from loc_df (fun s => s)) (classify_buildings self loc_df).
Proof.
  unfold classify_buildings.
  assert (H : List.Forall (comes_from loc_df (fun s => s))
                          (get_mobile_home (map normalise loc_df))).
  { unfold get_mobile_home. keep_columns.
    apply List.Forall_map, List.Forall_forall. intros r Hr. exists r.
    split; [exact Hr|]. split; reflexivity. }
  apply List.Forall_app. split.
  - pose proof (Forall_filter_keep _ (fun l => occupancycode l <? 1100) _ H) as Hres.
    destruct (List.filter _ _) as [|x xs] eqn:E; [constructor|].
    unfold get_mcm_code_residential, set_mcm_and_cat. keep_columns. exact Hres.
  - pose proof (Forall_filter_keep _ (fun l => 1100 <=? occupancycode l) _ H) as Hnon.
    destruct (List.filter _ _) as [|x xs] eqn:E; [constructor|].
    unfold get_mcm_code_non_residential. keep_columns. exact Hnon.
Qed.

Lemma comes_from_enrich_locations (self : KeysLookup) (loc_df : list RawLocation)
    (df : list (Location Z)) :
  enrich_locations self loc_df = inr df ->
  List.Forall (comes_from loc_df peril_group_expansion) df.
Proof.
  unfold enrich_locations. pose proof (comes_from_classify_buildings self loc_df) as H.
  destruct (classify_buildings self loc_df) as [|x xs]; [discriminate|].
  destruct (mapM _ _) as [e|df1] eqn:E; cbn [bind]; [discriminate|].
  intros [= <-].
  assert (H1 : List.Forall (comes_from loc_df (fun s => s)) df1).
  { eapply (Forall_mapM (comes_from loc_df (fun s => s)) (comes_from loc_df (fun s => s)));
      [| |exact E].
    - intros a b Ha Hb. cbv beta in Hb. destruct (get_floors_occupied (floorsoccupied a));
        cbn [bind] in Hb; [discriminate|].
      injection Hb as <-. exact Ha.
    - unfold get_number_of_storeys. keep_columns. exact H. }
  rewrite get_peril_rows, get_latlon_merge_only.
  apply List.Forall_map.
  apply List.Forall_impl with (P := comes_from loc_df (fun s => s)).
  { intros l (raw & Hraw & Hid & Hp). exists raw. split; [exact Hraw|]. split; [exact Hid|].
    cbn [locperilscovered set_locperilscovered]. now rewrite Hp. }
  unfold get_bi_poi, get_first_floor_height, first_floor_height_metres.
  keep_columns. exact H1.
Qed.

Lemma comes_from_expand_keys (loc_df : list RawLocation) (df : list (Location Z)) :
  List.Forall (comes_from loc_df peril_group_expansion) df ->
  List.Forall
    (fun k => exists raw, In raw loc_df /\ loc_id (k_loc k) = r_loc_id raw
                /\ In (coveragetype_id k) coverages
                /\ In (peril_id k)
                      (covered_perils (peril_group_expansion
                         (default_str "ORF;OSF;WSS" (r_locperilscovered raw)))))
    (expand_keys df).
Proof.
  intros H. apply List.Forall_forall. intros k Hk. rewrite expand_keys_flat in Hk.
  apply in_flat_map in Hk as (p & Hp & Hk). apply in_flat_map in Hk as (c & Hc & Hk).
  apply in_map_iff in Hk as (l & <- & Hl). apply filter_In in Hl as (Hl & Hcov).
  rewrite List.Forall_forall in H. destruct (H l Hl) as (raw & Hraw & Hid & Hper).
  exists raw. cbn [k_loc candidate coveragetype_id peril_id].
  split; [exact Hraw|]. split; [exact Hid|]. split; [exact Hc|].
  unfold covered_perils. apply filter_In. split; [exact Hp|]. now rewrite <- Hper.
Qed.

Lemma comes_from_keys_at_sampling (self : KeysLookup) (loc_df : list RawLocation)
    (df : list (Location Z)) :
  List.Forall (comes_from loc_df peril_group_expansion) df ->
  List.Forall
    (fun k => exists raw, In raw loc_df /\ loc_id (k_loc k) = r_loc_id raw
                /\ In (coveragetype_id k) coverages
                /\ In (peril_id k)
                      (covered_perils (peril_group_expansion
                         (default_str "ORF;OSF;WSS" (r_locperilscovered raw)))))
    (keys_at_sampling self df).
Proof.
  intros H. apply comes_from_expand_keys in H.
  unfold keys_at_sampling. cbv zeta. rewrite sort_keys_status_rows.
  apply List.Forall_map.
  set (P := fun k : Key => _) in H.
  assert (H1 : List.Forall P (candidate_keys self df)).
  { unfold candidate_keys, fillna_vulnerability_id, get_latlon_ids, assign_vulnerability_id,
      suppress_fields, on_loc. keep_columns. exact H. }
  apply List.Forall_forall. intros k Hk. unfold assign_at_risk in Hk.
  apply list_elem_of_In, elem_of_lookup_imap_1 in Hk as (i & k0 & -> & Hk0).
  apply list_elem_of_lookup_2, list_elem_of_In in Hk0.
  rewrite List.Forall_forall in H1. exact (H1 k0 Hk0).
Qed.

Section Origin.

Variable uk_tif : option Q -> option Q -> option Z.

(** A row of the frame [format_keys_df] returns is the key of its index
    label, with or without the status of a catchment that was not found. *)
Lemma format_keys_df_row_key (keys_df : list Key) (out : list FKey) (i : nat) (r : FKey) :
  format_keys_df uk_tif keys_df = inr out -> out !! i = Some r ->
  exists k, keys_df !! i = Some k
    /\ (fk_key r = k \/ fk_key r = set_status_message OASIS_KEYS_FL no_catchment k).
Proof.
  intros Hout Hi. destruct (format_keys_df_rows uk_tif _ _ Hout) as (H1 & H2).
  destruct (Forall2_lookup_r _ _ _ _ _ H1 Hi) as (r0 & Hr0 & _).
  rewrite list_lookup_fmap in Hr0.
  destruct (keys_df !! i) as [k|] eqn:Ek; [|discriminate].
  exists k. split; [reflexivity|]. clear Hr0 r0 H1.
  destruct (decide (status k = Some STATUS_success)) as [Hs|Hs].
  - destruct (format_keys_df_success_row uk_tif _ _ i k Hout Ek Hs) as (r' & Hr' & _ & Hcase).
    rewrite Hi in Hr'. injection Hr' as <-.
    destruct (uk_tif (longitude (k_loc k)) (latitude (k_loc k))) as [c|].
    + destruct (c <? 0); [right|left]; apply Hcase.
    + right. apply Hcase.
  - specialize (H2 i k Ek Hs). rewrite Hi, list_lookup_fmap, Ek in H2.
    injection H2 as ->. left. reflexivity.
Qed.

(** Every row of the frame a call returns carries the loc_id of a location
    of the batch, one of the coverages 1, 3 and 4, and one of the perils
    ORF, OSF and WSS that the covered perils of that location, with the
    default and the peril groups resolved, contain: the call makes no key
    for a location it was not given, nor for a peril a location does not
    cover. *)
Theorem returned_rows_come_from_batch (self self' : KeysLookup) (loc_df : list RawLocation)
    (out : list ResultKey) :
  process_locations uk_tif self loc_df = (self', inr out) ->
  List.Forall
    (fun r => exists raw, In raw loc_df /\ rk_loc_id r = r_loc_id raw
                /\ In (rk_coverage_type r) coverages
                /\ In (rk_peril_id r)
                      (covered_perils (peril_group_expansion
                         (default_str "ORF;OSF;WSS" (r_locperilscovered raw)))))
    out.
Proof.
  intros H. apply process_locations_returns in H as (df & keys & Hdf & Hkeys & ->).
  pose proof (comes_from_keys_at_sampling self loc_df df
                (comes_from_enrich_locations self loc_df df Hdf)) as Hfrom.
  apply List.Forall_map, List.Forall_forall. intros r Hr.
  apply list_elem_of_In, list_elem_of_lookup in Hr as (i & Hi).
  destruct (format_keys_df_row_key _ _ i r Hkeys Hi) as (k & Hk & Hcase).
  apply list_elem_of_lookup_2, list_elem_of_In in Hk.
  rewrite List.Forall_forall in Hfrom. destruct (Hfrom k Hk) as (raw & Hraw & Hfields).
  exists raw. split; [exact Hraw|]. unfold result_key.
  cbn [rk_loc_id rk_coverage_type rk_peril_id].
  destruct Hcase as [->| ->]; exact Hfields.
Qed.

End Origin.

Lemma returned_rows_come_from_batch_witness :
  process_locations Example1.uk_tif Example1.self0 [Example1.site 5 1 2 "XX"]
  = (Example1.self_after, inr Example1.out_at_risk)
  /\ List.Forall
       (fun r => exists raw, In raw [Example1.site 5 1 2 "XX"] /\ rk_loc_id r = r_loc_id raw
                   /\ In (rk_coverage_type r) coverages
                   /\ In (rk_peril_id r)
                         (covered_perils (peril_group_expansion
                            (default_str "ORF;OSF;WSS" (r_locperilscovered raw)))))
       Example1.out_at_risk.
Proof.
  assert (H : process_locations Example1.uk_tif Example1.self0 [Example1.site 5 1 2 "XX"]
              = (Example1.self_after, inr Example1.out_at_risk))
    by (vm_compute; reflexivity).
  split; [exact H|].
  exact (returned_rows_come_from_batch Example1.uk_tif _ _ _ _ H).
Defined.

(** ** What the suppression keeps *)

Lemma Forall2_map_self {A} (R : A -> A -> Prop) (f : A -> A) (l : list A) :
  (forall x, R x (f x)) -> Forall2 R l (map f l).
Proof. intros H. induction l; cbn [map]; constructor; auto. Qed.

(** "remove values that would screw up lookup", row by row and column by
    column: floorsoccupied is kept for contents of a flat or of a
    nonresidential building and is -9999 elsewhere; bipoi_cat is kept for bi
    only, -1 standing for a missing one, and is -9999 elsewhere;
    numberofstoreys is 0 for bi and for contents of a flat and is kept
    elsewhere; mcm_code is 0 for bi of a nonresidential building and is kept
    elsewhere, -1 standing for a missing one; peril_type is the text of all
    three perils for bi and the peril of the key elsewhere.  The rows keep
    their order, coverage, peril and building category. *)
Theorem suppress_fields_by_coverage (keys_df : list Key) :
  Forall2
    (fun k0 k =>
       let cat := building_cat (k_loc k0) in
       let coverage := coveragetype_id k0 in
       coveragetype_id k = coverage /\ peril_id k = peril_id k0
       /\ building_cat (k_loc k) = cat
       /\ floorsoccupied (k_loc k)
          = (if (coverage =? contents_id) && (str_eqb cat "flat" || str_eqb cat "nonres")
             then floorsoccupied (k_loc k0) else -9999)
       /\ bipoi_cat (k_loc k)
          = (if coverage =? bi_id then fillna (-1) (bipoi_cat (k_loc k0)) else Some (-9999))
       /\ numberofstoreys (k_loc k)
          = (if (coverage =? bi_id) || (str_eqb cat "flat" && (coverage =? contents_id))
             then 0 else numberofstoreys (k_loc k0))
       /\ mcm_code (k_loc k)
          = (if (coverage =? bi_id) && str_eqb cat "nonres" then Some 0
             else fillna (-1) (mcm_code (k_loc k0)))
       /\ peril_type k = Some (if coverage =? bi_id then ALL_PERILS else peril_id k0))
    keys_df (suppress_fields keys_df).
Proof.
  unfold suppress_fields, loc_assign. rewrite !map_map.
  apply Forall2_map_self. intros k0. cbv zeta.
  destruct k0 as [l c p pt vid la lo ar st ms].
  cbn -[Z.eqb str_eqb fillna].
  destruct (c =? contents_id) eqn:Ec; destruct (c =? bi_id) eqn:Eb;
    try (exfalso; apply Z.eqb_eq in Ec; apply Z.eqb_eq in Eb;
         unfold contents_id, bi_id in *; lia);
    destruct (str_eqb (building_cat l) "flat") eqn:Ef;
    destruct (str_eqb (building_cat l) "nonres") eqn:En;
    repeat (progress (cbn -[Z.eqb str_eqb fillna]; rewrite ?Ec, ?Eb, ?Ef, ?En));
    repeat split.
Qed.
